(** * GlobalSystemStateProvider (packages/ui/src/providers/global-system-state.tsx)

    A shallow embedding of the provider component: the render function as a
    pure function of the state cells and of the status query result, and the
    component's life (commits with their effects, restart/shutdown calls,
    timers, page loads) as a step function on an explicit world. *)

From Stdlib Require Import Bool List String NArith Arith Lia.
Import ListNotations.

Local Open Scope string_scope.
Local Open Scope list_scope.

(** ** JavaScript values the component handles *)

Module Js.

(** [systemStatusQ.data]: a string sent by the backend, or [undefined]. *)
Definition Status := option string.

Definition undefined : Status := None.

(** [a === b] on values that are strings or [undefined]. *)
Definition strictEq (a b : Status) : bool :=
  match a, b with
  | None, None => true
  | Some x, Some y => String.eqb x y
  | _, _ => false
  end.

(** [a ?? d]: the default only replaces a nullish left operand. *)
Definition nullish (a : Status) (d : string) : string :=
  match a with
  | Some x => x
  | None => d
  end.

End Js.

Import Js.

Notation "a === b" := (strictEq a b) (at level 70, no associativity).

(** The three literals the source compares against. *)
Definition running : Status := Some "running".
Definition shutting_down : Status := Some "shutting-down".
Definition restarting : Status := Some "restarting".

(** Modelled from the spec: the constant [MS_PER_SECOND] of
    [@/utils/date-time] is not part of the sources at hand; the spec calls
    [30 * MS_PER_SECOND] a 30-second timer and [10 * MS_PER_SECOND] the longer
    polling period, so it is the number of milliseconds in a second. *)
Definition MS_PER_SECOND : N := 1000.

(** ** The data the render reads *)

(** The error object of a failed query; only its presence is ever tested. *)
Definition Error := string.

(** The fields of [systemStatusQ] the component reads.  They are kept
    independent: nothing below relies on how the query library relates them. *)
Record QueryResult := mkQuery {
  data : Status;
  error : option Error;
  isError : bool;
  isLoading : bool;
  failureCount : nat
}.

(** The four state cells: three [useState] cells and the cell of
    [useLocalStorage2 'should-logout-on-running'].

    Modelled from the spec: the hook [useLocalStorage2] of
    [@/hooks/use-local-storage2] is not among the sources at hand.  The spec
    has it as a persisted key-value store holding a boolean under the key
    [should-logout-on-running], which survives a page reload; so the cell
    reads and writes like a [useState] cell, and starts from what was
    persisted (from [false], its default, when nothing was). *)
Record Flags := mkFlags {
  triggered : bool;
  shouldLogoutOnRunning : bool;
  startShutdownTimer : bool;
  shutdownComplete : bool
}.

Definition initialFlags (persisted : bool) : Flags :=
  mkFlags false persisted false false.

(** What a render returns. *)
Inductive Screen :=
| CheckingBackendScreen      (* BareCoverMessage, t('trpc.checking-backend') *)
| ShutdownCompleteScreen     (* "Shutdown (probably) complete." *)
| ChildrenScreen             (* the context provider around {children} *)
| ShuttingDownScreen         (* CoverMessage, t('shut-down.shutting-down') *)
| RestartingScreen           (* CoverMessage, t('restart.restarting') *)
| UnexpectedStateScreen.     (* "Unexpected state" *)

Inductive Outcome :=
| Throws (e : Error)
| Renders (s : Screen).

(** ** The render function *)

Module Provider.

(** Line 50: [refetchInterval: triggered ? 500 : 10 * MS_PER_SECOND] *)
Definition refetchInterval (st : Flags) : N :=
  if triggered st then 500%N else (10 * MS_PER_SECOND)%N.

(** Lines 54-59: [if (systemStatusQ.error && !triggered) throw systemStatusQ.error] *)
Definition throwGuard (st : Flags) (q : QueryResult) : option Error :=
  match error q with
  | Some e => if negb (triggered st) then Some e else None
  | None => None
  end.

(** Line 62: [usePreviousDistinct(status) ?? 'running'], given what the hook
    returned. *)
Definition prevStatus (previousDistinct : Status) : string :=
  nullish previousDistinct "running".

(** Line 104: [triggered === true && status === 'running' ? prevStatus : status] *)
Definition statusToShow (st : Flags) (status : Status) (prev : string) : Status :=
  if triggered st && (status === running) then Some prev else status.

(** Lines 126-181, the returns of the component: the [isLoading] branch, the
    terminal message, then the [switch] on [statusToShow], whose [case
    undefined] falls through to [case 'running']. *)
Definition selectScreen (st : Flags) (q : QueryResult) (shown : Status) : Screen :=
  if isLoading q then CheckingBackendScreen
  else if (shown === shutting_down) && shutdownComplete st then ShutdownCompleteScreen
  else match shown with
       | None => ChildrenScreen
       | Some s =>
           if (s =? "running") then ChildrenScreen
           else if (s =? "shutting-down") then ShuttingDownScreen
           else if (s =? "restarting") then RestartingScreen
           else UnexpectedStateScreen
       end.

(** One render, given the value [usePreviousDistinct] hands back. *)
Definition render (st : Flags) (q : QueryResult) (previousDistinct : Status) : Outcome :=
  match throwGuard st q with
  | Some e => Throws e
  | None =>
      Renders (selectScreen st q
                 (statusToShow st (data q) (prevStatus previousDistinct)))
  end.

(** The guards of the three effects, on the values their closures capture. *)

(** Line 65: [status !== 'running' && triggered && !shouldLogoutOnRunning] *)
Definition oweLogoutGuard (st : Flags) (q : QueryResult) : bool :=
  negb (data q === running) && triggered st && negb (shouldLogoutOnRunning st).

(** Line 75: [status === 'running' && shouldLogoutOnRunning === true] *)
Definition logoutGuard (st : Flags) (q : QueryResult) : bool :=
  (data q === running) && shouldLogoutOnRunning st.

(** Lines 93-97: [status === 'shutting-down' && !startShutdownTimer &&
     (systemStatusQ.isError || systemStatusQ.failureCount > 0)] *)
Definition shutdownTimerGuard (st : Flags) (q : QueryResult) : bool :=
  (data q === shutting_down) && negb (startShutdownTimer st)
  && (isError q || Nat.ltb 0 (failureCount q)).

(** The values the [switch] has a [case] for. *)
Definition knownStatus (s : Status) : Prop :=
  s = undefined \/ s = running \/ s = shutting_down \/ s = restarting.

End Provider.

Import Provider.

(** ** react-use's [usePreviousDistinct]

    The hook keeps two refs: the value of the current run of equal
    observations and the value of the run before it.  The first call only
    initialises the current ref; a later call shifts the refs when the value
    differs (by [===]) from the current ref.  It returns the previous ref,
    [undefined] as long as the value never changed. *)

Module ReactUse.

Record Refs := mkRefs {
  prevRef : Status;
  curRef : Status
}.

(** [None]: the hook has not been called yet (first mount ahead). *)
Definition HookState := option Refs.

Definition usePreviousDistinct (h : HookState) (value : Status) : Status * HookState :=
  match h with
  | None => (undefined, Some (mkRefs undefined value))
  | Some r =>
      if negb (curRef r === value)
      then (curRef r, Some (mkRefs (curRef r) value))
      else (prevRef r, Some r)
  end.

(** The refs after a sequence of observations. *)
Fixpoint observe (h : HookState) (values : list Status) : HookState :=
  match values with
  | [] => h
  | v :: rest => observe (snd (usePreviousDistinct h v)) rest
  end.

End ReactUse.

Import ReactUse.

(** ** The component in its environment *)

Module Runtime.

Inductive MutationKind := Restart | Shutdown.

(** The two callbacks handed to [setTimeout]. *)
Inductive Callback :=
| LogoutCallback             (* cancelQueries(); removeJwt(); location.href = '/' *)
| ShutdownCompleteCallback.  (* setShutdownComplete(true) *)

Record Timer := mkTimer {
  setAt : N;          (* the time of the [setTimeout] call, in ms *)
  delay : N;          (* its second argument *)
  callback : Callback
}.

Definition due (t : Timer) : N := setAt t + delay t.

(** What the component does to the outside, in order.  [console.log] and the
    [debugger] statement are left out. *)
Inductive Action :=
| MutationSent (k : MutationKind)   (* trpc system.restart / system.shutdown *)
| StatusQueryCancel                 (* ctx.system.status.cancel() *)
| CancelQueries                     (* queryClient.cancelQueries() *)
| RemoveJwt                         (* jwt.removeJwt() *)
| Navigate (href : string)          (* window.location.href = href *)
| TimeoutSet (t : Timer).           (* setTimeout(callback, delay) *)

Record World := mkWorld {
  flags : Flags;
  hook : HookState;
  (** what the last committed render captured: the dependency arrays of the
      effects are compared against it *)
  lastRender : option (Flags * QueryResult);
  (** [false] once a render has thrown: the subtree is unmounted *)
  mounted : bool;
  (** the outcome of the last render *)
  screen : option Outcome;
  now : N;
  timers : list Timer;
  log : list Action
}.

(** A fresh page: the [useState] cells start from their initial values, the
    local-storage cell from what was persisted. *)
Definition mount (persisted : bool) (t : N) : World :=
  mkWorld (initialFlags persisted) None None true None t [] [].

(** *** State setters and [setTimeout] *)

Definition withFlags (f : Flags -> Flags) (w : World) : World :=
  mkWorld (f (flags w)) (hook w) (lastRender w) (mounted w) (screen w)
          (now w) (timers w) (log w).

Definition setTriggered (b : bool) : World -> World :=
  withFlags (fun st => mkFlags b (shouldLogoutOnRunning st)
                               (startShutdownTimer st) (shutdownComplete st)).

Definition setShouldLogout (b : bool) : World -> World :=
  withFlags (fun st => mkFlags (triggered st) b
                               (startShutdownTimer st) (shutdownComplete st)).

Definition setStartShutdownTimer (b : bool) : World -> World :=
  withFlags (fun st => mkFlags (triggered st) (shouldLogoutOnRunning st)
                               b (shutdownComplete st)).

Definition setShutdownComplete (b : bool) : World -> World :=
  withFlags (fun st => mkFlags (triggered st) (shouldLogoutOnRunning st)
                               (startShutdownTimer st) b).

Definition perform (acts : list Action) (w : World) : World :=
  mkWorld (flags w) (hook w) (lastRender w) (mounted w) (screen w)
          (now w) (timers w) (log w ++ acts).

Definition setTimeout (cb : Callback) (ms : N) (w : World) : World :=
  let t := mkTimer (now w) ms cb in
  mkWorld (flags w) (hook w) (lastRender w) (mounted w) (screen w)
          (now w) (timers w ++ [t]) (log w ++ [TimeoutSet t]).

(** *** The three effects (lines 64-71, 73-89 and 92-101)

    Each reads the values of the render that created it ([st], [q]) and
    writes through the setters. *)

Definition effectOweLogout (st : Flags) (q : QueryResult) (w : World) : World :=
  if oweLogoutGuard st q then setShouldLogout true w else w.

Definition effectLogout (st : Flags) (q : QueryResult) (w : World) : World :=
  if logoutGuard st q
  then setTimeout LogoutCallback 1000 (setShouldLogout false w)
  else w.

Definition effectShutdownTimer (st : Flags) (q : QueryResult) (w : World) : World :=
  if shutdownTimerGuard st q
  then setTimeout ShutdownCompleteCallback (30 * MS_PER_SECOND)
                  (setStartShutdownTimer true w)
  else w.

(** *** Dependency arrays

    An effect runs after the first commit and after a commit in which one of
    its dependencies changed.  [fresh] says that the objects among the
    dependencies ([setShouldLogout], [jwt], [queryClient]) are new ones in
    this render. *)

Definition bool_changed (a b : bool) : bool := negb (Bool.eqb a b).

Definition status_changed (a b : Status) : bool := negb (a === b).

(** [[setShouldLogout, shouldLogoutOnRunning, status, triggered]] *)
Definition oweLogoutDepsChanged (fresh : bool) (st0 : Flags) (q0 : QueryResult)
           (st : Flags) (q : QueryResult) : bool :=
  fresh
  || bool_changed (shouldLogoutOnRunning st0) (shouldLogoutOnRunning st)
  || status_changed (data q0) (data q)
  || bool_changed (triggered st0) (triggered st).

(** [[status, shouldLogoutOnRunning, jwt, setShouldLogout, queryClient]] *)
Definition logoutDepsChanged (fresh : bool) (st0 : Flags) (q0 : QueryResult)
           (st : Flags) (q : QueryResult) : bool :=
  status_changed (data q0) (data q)
  || bool_changed (shouldLogoutOnRunning st0) (shouldLogoutOnRunning st)
  || fresh.

(** [[startShutdownTimer, status, systemStatusQ.failureCount,
      systemStatusQ.isError, triggered]] *)
Definition shutdownTimerDepsChanged (st0 : Flags) (q0 : QueryResult)
           (st : Flags) (q : QueryResult) : bool :=
  bool_changed (startShutdownTimer st0) (startShutdownTimer st)
  || status_changed (data q0) (data q)
  || negb (Nat.eqb (failureCount q0) (failureCount q))
  || bool_changed (isError q0) (isError q)
  || bool_changed (triggered st0) (triggered st).

Definition runsWhen (w : World)
           (changed : Flags -> QueryResult -> bool) : bool :=
  match lastRender w with
  | None => true
  | Some (st0, q0) => changed st0 q0
  end.

(** *** One render pass with its commit

    The render reads the state cells as they are; when it throws, the hook
    after the [throw] is not reached, no effect runs and the component is
    unmounted.  Otherwise the effects whose dependencies changed run in
    source order. *)

Definition commit (q : QueryResult) (fresh : bool) (w : World) : World :=
  let st := flags w in
  match throwGuard st q with
  | Some e =>
      mkWorld st (hook w) (lastRender w) false (Some (Throws e))
              (now w) (timers w) (log w)
  | None =>
      let (previousDistinct, h) := usePreviousDistinct (hook w) (data q) in
      let out := render st q previousDistinct in
      let w0 := mkWorld st h (Some (st, q)) true (Some out)
                        (now w) (timers w) (log w) in
      let w1 := if runsWhen w (fun st0 q0 => oweLogoutDepsChanged fresh st0 q0 st q)
                then effectOweLogout st q w0 else w0 in
      let w2 := if runsWhen w (fun st0 q0 => logoutDepsChanged fresh st0 q0 st q)
                then effectLogout st q w1 else w1 in
      if runsWhen w (fun st0 q0 => shutdownTimerDepsChanged st0 q0 st q)
      then effectShutdownTimer st q w2 else w2
  end.

(** *** Timers *)

Fixpoint removeNth {A} (i : nat) (l : list A) : list A :=
  match l, i with
  | [], _ => []
  | _ :: rest, O => rest
  | x :: rest, S j => x :: removeNth j rest
  end.

(** The body of a timer callback.  A state setter of an unmounted component
    does nothing. *)
Definition runCallback (cb : Callback) (w : World) : World :=
  match cb with
  | LogoutCallback => perform [CancelQueries; RemoveJwt; Navigate "/"] w
  | ShutdownCompleteCallback =>
      if mounted w then setShutdownComplete true w else w
  end.

(** The [i]-th pending timer fires, which it can once it is due. *)
Definition fire (i : nat) (w : World) : World :=
  match nth_error (timers w) i with
  | Some t =>
      if (due t <=? now w)%N
      then runCallback (callback t)
             (mkWorld (flags w) (hook w) (lastRender w) (mounted w) (screen w)
                      (now w) (removeNth i (timers w)) (log w))
      else w
  | None => w
  end.

(** *** Events *)

Inductive Event :=
| Commit (q : QueryResult) (fresh : bool)  (* a render with this query result *)
| Call (k : MutationKind)                  (* a descendant calls restart() / shutdown() *)
| MutationSucceeded (k : MutationKind)     (* the mutation resolves: onSuccess *)
| Elapse (ms : N)                          (* time passes *)
| FireTimer (i : nat)                      (* the browser runs a due timer *)
| PageLoad.                                (* the page is (re)loaded *)

(** Lines 29-31: [onMutate] *)
Definition onMutate (w : World) : World := setTriggered true w.

(** [restart()] / [shutdown()]: [mutate] runs [onMutate], then sends. *)
Definition mutate (k : MutationKind) (w : World) : World :=
  perform [MutationSent k] (onMutate w).

(** Lines 36-40: [onSuccess] *)
Definition onSuccess (w : World) : World := perform [StatusQueryCancel] w.

Definition step (w : World) (ev : Event) : World :=
  match ev with
  | Commit q fresh => if mounted w then commit q fresh w else w
  | Call k => if mounted w then mutate k w else w
  | MutationSucceeded _ => onSuccess w
  | Elapse ms =>
      mkWorld (flags w) (hook w) (lastRender w) (mounted w) (screen w)
              (now w + ms) (timers w) (log w)
  | FireTimer i => fire i w
  | PageLoad => mount (shouldLogoutOnRunning (flags w)) (now w)
  end.

Definition run (w : World) (evs : list Event) : World := fold_left step evs w.

(** The worlds a page can be in. *)
Inductive Reachable : World -> Prop :=
| reach_mount persisted t : Reachable (mount persisted t)
| reach_step w ev : Reachable w -> Reachable (step w ev).

End Runtime.

Import Runtime.

(** ** Bookkeeping for the proofs *)

Module Effects.

(** Every effect runs, whatever its dependencies. *)
Definition commitAll (q : QueryResult) (w : World) : World :=
  let st := flags w in
  let ph := usePreviousDistinct (hook w) (data q) in
  effectShutdownTimer st q
    (effectLogout st q
       (effectOweLogout st q
          (mkWorld st (snd ph) (Some (st, q)) true
                   (Some (render st q (fst ph))) (now w) (timers w) (log w)))).

(** The effects of the last committed render have done their work. *)
Definition Settled (w : World) : Prop :=
  match lastRender w with
  | None => True
  | Some (st0, q0) =>
      (oweLogoutGuard st0 q0 = true -> shouldLogoutOnRunning (flags w) = true) /\
      (logoutGuard st0 q0 = true -> shouldLogoutOnRunning (flags w) = false) /\
      (shutdownTimerGuard st0 q0 = true -> startShutdownTimer (flags w) = true)
  end.

(** The timers a commit starts at time [t]: the logout delay, then the
    shutdown timer. *)
Definition startedTimers (st : Flags) (q : QueryResult) (t : N) : list Timer :=
  (if logoutGuard st q then [mkTimer t 1000 LogoutCallback] else [])
  ++ (if shutdownTimerGuard st q
      then [mkTimer t (30 * MS_PER_SECOND) ShutdownCompleteCallback] else []).

(** The state cells after the effects of a commit. *)
Definition flagsAfterEffects (st : Flags) (q : QueryResult) : Flags :=
  mkFlags (triggered st)
          (if logoutGuard st q then false
           else if oweLogoutGuard st q then true
           else shouldLogoutOnRunning st)
          (if shutdownTimerGuard st q then true else startShutdownTimer st)
          (shutdownComplete st).

Definition isShutdownTimeout (a : Action) : bool :=
  match a with
  | TimeoutSet t =>
      match callback t with ShutdownCompleteCallback => true | _ => false end
  | _ => false
  end.

Definition isNavigation (a : Action) : bool :=
  match a with
  | Navigate _ => true
  | _ => false
  end.

Definition isLogoutTimer (t : Timer) : bool :=
  match callback t with LogoutCallback => true | _ => false end.

(** How many shutdown timers the page has started. *)
Definition shutdownTimeouts (w : World) : nat :=
  List.length (filter isShutdownTimeout (log w)).

(** Navigations done, and navigations still waiting in a timer. *)
Definition navigations (w : World) : nat :=
  List.length (filter isNavigation (log w)).

Definition pendingLogouts (w : World) : nat :=
  List.length (filter isLogoutTimer (timers w)).

Definition isPageLoad (ev : Event) : bool :=
  match ev with PageLoad => true | _ => false end.

(** A commit that reports a status other than ['running']. *)
Definition leavesRunning (ev : Event) : bool :=
  match ev with
  | Commit q _ => negb (data q === running)
  | _ => false
  end.

(** What holds of every world a page can reach. *)
Record Invariant (w : World) : Prop := mkInvariant {
  inv_settled : Settled w;
  (** a pending timer was started by a logged [setTimeout] *)
  inv_pending : forall t, In t (timers w) -> In (TimeoutSet t) (log w);
  (** a logged [setTimeout] lies in the past and has the delay of its callback *)
  inv_logged : forall t, In (TimeoutSet t) (log w) ->
      (setAt t <= now w)%N /\
      delay t = match callback t with
                | LogoutCallback => 1000%N
                | ShutdownCompleteCallback => (30 * MS_PER_SECOND)%N
                end;
  (** [shutdownComplete] is only ever set by a shutdown timer that was due *)
  inv_complete : shutdownComplete (flags w) = true ->
      exists t, In (TimeoutSet t) (log w) /\
                callback t = ShutdownCompleteCallback /\ (due t <= now w)%N;
  inv_screen : screen w = Some (Renders ShutdownCompleteScreen) ->
      shutdownComplete (flags w) = true;
  (** one shutdown timer per page, started when [startShutdownTimer] is set *)
  inv_single : shutdownTimeouts w = if startShutdownTimer (flags w) then 1 else 0
}.

End Effects.

Import Effects.

(** ** Concrete inputs used below *)

Module Scenario.

(** Query results as the query library hands them out. *)
Definition loading : QueryResult := mkQuery undefined None false true 0.
Definition success (s : string) : QueryResult := mkQuery (Some s) None false false 0.
Definition retrying (s : string) (n : nat) : QueryResult :=
  mkQuery (Some s) None false false n.
Definition refetchError (s : string) (e : Error) : QueryResult :=
  mkQuery (Some s) (Some e) true false 4.
Definition loadingError (e : Error) : QueryResult :=
  mkQuery undefined (Some e) true false 4.

(** The cells after a shutdown requested from this page has run its full
    30 seconds. *)
Definition afterShutdownTimer : Flags := mkFlags true true true true.

(** A shutdown requested from this page; the backend stops answering, the
    timer runs out; later the device answers again. *)
Definition shutdownThenBack : list Event :=
  [ Commit loading true;
    Commit (success "running") false;
    Call Shutdown;
    MutationSucceeded Shutdown;
    Commit (success "shutting-down") false;
    Commit (retrying "shutting-down" 1) false;
    Elapse 30000;
    FireTimer 0;
    Commit (refetchError "shutting-down" "fetch failed") false;
    Commit (success "running") false ].

(** Another client shuts the device down: this page never set [triggered]. *)
Definition shutdownFromElsewhere : list Event :=
  [ Commit loading true;
    Commit (success "running") false;
    Commit (success "shutting-down") false ].

(** ... its probe fails once, recovers, and the 30 seconds pass. *)
Definition elsewhereThenTimer : list Event :=
  shutdownFromElsewhere ++
  [ Commit (retrying "shutting-down" 1) false;
    Commit (success "shutting-down") false;
    Elapse 30000;
    FireTimer 0 ].

(** ... its probe fails, is retried three times and gives up: the render
    with the error throws; the 30 seconds pass and the timer runs. *)
Definition elsewhereThenError : list Event :=
  shutdownFromElsewhere ++
  [ Commit (retrying "shutting-down" 1) false;
    Commit (retrying "shutting-down" 2) false;
    Commit (retrying "shutting-down" 3) false;
    Commit (refetchError "shutting-down" "fetch failed") false;
    Elapse 30000;
    FireTimer 0 ].

End Scenario.

(** ** The context handed to descendants *)

Module Context.

(** Lines 191-199 and 201-209: [useRestart] and [useShutdown] hand out the
    [mutate] of their mutation, wired to the same [onMutate] and [onSuccess];
    calling one is the event [Call]. *)
Definition useRestart : Event := Call Restart.
Definition useShutdown : Event := Call Shutdown.

(** Lines 17-20: a value of [GlobalSystemStateContext]. *)
Record ContextValue := mkContext {
  shutdown : Event;
  restart : Event
}.

(** Lines 144-181: only the [case undefined] / [case 'running'] return wraps
    its content in [GlobalSystemStateContext.Provider]; elsewhere the context
    keeps its default, [null]. *)
Definition providedContext (o : Outcome) : option ContextValue :=
  match o with
  | Renders ChildrenScreen => Some (mkContext useShutdown useRestart)
  | _ => None
  end.

(** Lines 184-189: [useGlobalSystemState] throws on a [null] context. *)
Definition useGlobalSystemState (ctx : option ContextValue) : ContextValue + string :=
  match ctx with
  | Some c => inl c
  | None =>
      inr "`useGlobalSystemState` must be used within `GlobalSystemStateProvider`"
  end.

End Context.

Import Context.

(** ** What the log and the events are asked about *)

Module Trace.

(** The three actions of the logout callback (lines 83-85). *)
Definition isLogoutAction (a : Action) : bool :=
  match a with
  | CancelQueries | RemoveJwt | Navigate _ => true
  | _ => false
  end.

Definition logoutBundle : list Action := [CancelQueries; RemoveJwt; Navigate "/"].

(** [n] runs of the logout callback, one after the other. *)
Fixpoint bundles (n : nat) : list Action :=
  match n with
  | O => []
  | S k => bundles k ++ logoutBundle
  end.

Definition isCall (ev : Event) : bool :=
  match ev with Call _ => true | _ => false end.

Definition isFireTimer (ev : Event) : bool :=
  match ev with FireTimer _ => true | _ => false end.

(** A page that owes no logout and has none under way. *)
Record Quiet (w : World) : Prop := mkQuiet {
  quiet_triggered : triggered (flags w) = false;
  quiet_flag : shouldLogoutOnRunning (flags w) = false;
  quiet_timers : pendingLogouts w = 0;
  quiet_log : filter isLogoutAction (log w) = []
}.

(** [w'] has the timers and the log of [w] and what was started since, and
    has not taken back a shutdown flag. *)
Definition Extends (w w' : World) : Prop :=
  (exists l, timers w' = timers w ++ l /\
             log w' = log w ++ map TimeoutSet l) /\
  (startShutdownTimer (flags w) = true -> startShutdownTimer (flags w') = true) /\
  shutdownComplete (flags w') = shutdownComplete (flags w).

End Trace.

Import Trace.

(** ** Facts about the JavaScript operators *)

Section JsFacts.

Lemma strictEq_true (a b : Status) : (a === b) = true <-> a = b.
Proof.
  destruct a as [x|], b as [y|]; simpl; split; intro H;
    try discriminate; try reflexivity.
  - apply String.eqb_eq in H. now subst.
  - injection H as ->. apply String.eqb_refl.
Qed.

Lemma strictEq_false (a b : Status) : (a === b) = false <-> a <> b.
Proof.
  split.
  - intros H E. apply strictEq_true in E. congruence.
  - intro N. destruct (a === b) eqn:E; [|reflexivity].
    apply strictEq_true in E. contradiction.
Qed.

Lemma strictEq_refl (a : Status) : (a === a) = true.
Proof. now apply strictEq_true. Qed.

Lemma bool_changed_false (a b : bool) : bool_changed a b = false <-> a = b.
Proof. unfold bool_changed. destruct a, b; simpl; split; intro H; congruence. Qed.

Lemma status_changed_false (a b : Status) : status_changed a b = false <-> a = b.
Proof.
  unfold status_changed. rewrite negb_false_iff. apply strictEq_true.
Qed.

End JsFacts.

(** ** The render function: which screen, and when it throws *)

Section RenderFacts.

Variables (st : Flags) (q : QueryResult) (p : Status).

Lemma throwGuard_Some (e : Error) :
  throwGuard st q = Some e <-> error q = Some e /\ triggered st = false.
Proof.
  unfold throwGuard. destruct (error q) as [e'|], (triggered st); simpl;
    split; intros H; try discriminate; try tauto; try (destruct H; discriminate).
Qed.

Lemma throwGuard_None :
  throwGuard st q = None <-> error q = None \/ triggered st = true.
Proof.
  unfold throwGuard. destruct (error q) as [e'|], (triggered st); simpl;
    split; intros H; try discriminate; try tauto.
  destruct H; discriminate.
Qed.

Lemma render_throws (e : Error) :
  render st q p = Throws e <-> error q = Some e /\ triggered st = false.
Proof.
  rewrite <- throwGuard_Some. unfold render.
  destruct (throwGuard st q) as [e'|]; split; intro H;
    try discriminate; injection H as ->; reflexivity.
Qed.

Lemma render_renders (s : Screen) :
  render st q p = Renders s <->
  throwGuard st q = None /\
  selectScreen st q (statusToShow st (data q) (prevStatus p)) = s.
Proof.
  unfold render. destruct (throwGuard st q) as [e'|]; split; intro H.
  - discriminate.
  - destruct H; discriminate.
  - split; congruence.
  - destruct H as [_ <-]. reflexivity.
Qed.

Lemma statusToShow_masked :
  triggered st = true -> data q = running ->
  statusToShow st (data q) (prevStatus p) = Some (prevStatus p).
Proof.
  intros Ht Hd. unfold statusToShow. rewrite Ht, Hd. reflexivity.
Qed.

Lemma statusToShow_plain :
  ~ (triggered st = true /\ data q = running) ->
  statusToShow st (data q) (prevStatus p) = data q.
Proof.
  intro N. unfold statusToShow.
  destruct (triggered st); simpl; [|reflexivity].
  destruct (data q === running) eqn:E; [|reflexivity].
  apply strictEq_true in E. exfalso. apply N. now split.
Qed.

Lemma selectScreen_complete (shown : Status) :
  selectScreen st q shown = ShutdownCompleteScreen <->
  isLoading q = false /\ shown = shutting_down /\ shutdownComplete st = true.
Proof.
  unfold selectScreen. destruct (isLoading q).
  - split; [discriminate | intros [H _]; discriminate].
  - destruct (shown === shutting_down) eqn:E; simpl.
    + apply strictEq_true in E. subst shown.
      destruct (shutdownComplete st); simpl.
      * tauto.
      * split; [discriminate | intros (_ & _ & H); discriminate].
    + apply strictEq_false in E.
      split; [| intros (_ & H & _); contradiction].
      destruct shown as [s|]; [|discriminate].
      destruct (s =? "running"); [discriminate|].
      destruct (s =? "shutting-down") eqn:E2.
      * apply String.eqb_eq in E2. subst s. now contradiction E.
      * destruct (s =? "restarting"); discriminate.
Qed.

End RenderFacts.

(** The screens, one input each. *)

Example render_loading :
  render (initialFlags false) Scenario.loading undefined
  = Renders CheckingBackendScreen.
Proof. reflexivity. Qed.

Example render_running :
  render (initialFlags false) (Scenario.success "running") undefined
  = Renders ChildrenScreen.
Proof. reflexivity. Qed.

Example render_shutting_down :
  render (initialFlags false) (Scenario.success "shutting-down") running
  = Renders ShuttingDownScreen.
Proof. reflexivity. Qed.

Example render_restarting :
  render (initialFlags false) (Scenario.success "restarting") running
  = Renders RestartingScreen.
Proof. reflexivity. Qed.

Example render_updating :
  render (initialFlags false) (Scenario.success "updating") running
  = Renders UnexpectedStateScreen.
Proof. reflexivity. Qed.

Example render_masked :
  render (mkFlags true true false false) (Scenario.success "running") restarting
  = Renders RestartingScreen.
Proof. reflexivity. Qed.

Example render_failed_initial_load :
  render (initialFlags false) (Scenario.loadingError "fetch failed") undefined
  = Throws "fetch failed".
Proof. reflexivity. Qed.

Example render_failed_initial_load_triggered :
  render (mkFlags true false false false) (Scenario.loadingError "fetch failed")
         undefined
  = Renders ChildrenScreen.
Proof. reflexivity. Qed.


(** ** Dependency arrays never hold back an effect whose guard is open

    Every value a guard reads is listed in the effect's dependency array, and
    an effect that fires closes its own guard.  So on every world the page can
    reach, a commit runs exactly the effects whose guards are open. *)

Ltac unfold_setters :=
  unfold effectOweLogout, effectLogout, effectShutdownTimer, setTimeout,
    setShouldLogout, setStartShutdownTimer, setShutdownComplete, setTriggered,
    withFlags, perform in *.

(** From [a || b || ... = false] to the equalities between dependencies. *)
Ltac unchanged_deps :=
  repeat match goal with
         | H' : (_ || _) = false |- _ =>
             apply orb_false_elim in H'; destruct H' as [? ?]
         end;
  repeat match goal with
         | H' : bool_changed _ _ = false |- _ =>
             apply (proj1 (bool_changed_false _ _)) in H'
         | H' : status_changed _ _ = false |- _ =>
             apply (proj1 (status_changed_false _ _)) in H'
         | H' : negb (Nat.eqb _ _) = false |- _ =>
             apply (proj1 (negb_false_iff _)) in H';
             apply (proj1 (Nat.eqb_eq _ _)) in H'
         end.

Section DependencyArrays.

Variables (w : World) (q : QueryResult) (fresh : bool).

Hypothesis settled : Settled w.

Lemma oweLogout_not_held_back :
  runsWhen w (fun st0 q0 => oweLogoutDepsChanged fresh st0 q0 (flags w) q) = false ->
  oweLogoutGuard (flags w) q = false.
Proof.
  unfold runsWhen, Settled in *.
  destruct (lastRender w) as [[st0 q0]|]; [|discriminate].
  unfold oweLogoutDepsChanged. intro H. unchanged_deps.
  destruct settled as (S1 & _ & _).
  destruct (oweLogoutGuard (flags w) q) eqn:G; [|reflexivity].
  assert (G0 : oweLogoutGuard st0 q0 = true).
  { unfold oweLogoutGuard in *. congruence. }
  apply S1 in G0. unfold oweLogoutGuard in G. rewrite G0 in G.
  now rewrite andb_false_r in G.
Qed.

Lemma logout_not_held_back :
  runsWhen w (fun st0 q0 => logoutDepsChanged fresh st0 q0 (flags w) q) = false ->
  logoutGuard (flags w) q = false.
Proof.
  unfold runsWhen, Settled in *.
  destruct (lastRender w) as [[st0 q0]|]; [|discriminate].
  unfold logoutDepsChanged. intro H. unchanged_deps.
  destruct settled as (_ & S2 & _).
  destruct (logoutGuard (flags w) q) eqn:G; [|reflexivity].
  assert (G0 : logoutGuard st0 q0 = true).
  { unfold logoutGuard in *. congruence. }
  apply S2 in G0. unfold logoutGuard in G. rewrite G0 in G.
  now rewrite andb_false_r in G.
Qed.

Lemma shutdownTimer_not_held_back :
  runsWhen w (fun st0 q0 => shutdownTimerDepsChanged st0 q0 (flags w) q) = false ->
  shutdownTimerGuard (flags w) q = false.
Proof.
  unfold runsWhen, Settled in *.
  destruct (lastRender w) as [[st0 q0]|]; [|discriminate].
  unfold shutdownTimerDepsChanged. intro H. unchanged_deps.
  destruct settled as (_ & _ & S3).
  destruct (shutdownTimerGuard (flags w) q) eqn:G; [|reflexivity].
  assert (G0 : shutdownTimerGuard st0 q0 = true).
  { unfold shutdownTimerGuard in *. congruence. }
  apply S3 in G0. unfold shutdownTimerGuard in G. rewrite G0 in G.
  simpl in G. now rewrite andb_false_r in G.
Qed.

Lemma commit_runs_open_guards :
  throwGuard (flags w) q = None -> commit q fresh w = commitAll q w.
Proof.
  intro NT. unfold commit, commitAll. rewrite NT.
  destruct (usePreviousDistinct (hook w) (data q)) as [pd h]. simpl fst. simpl snd.
  destruct (runsWhen w (fun st0 q0 => oweLogoutDepsChanged fresh st0 q0 (flags w) q)) eqn:R1;
  destruct (runsWhen w (fun st0 q0 => logoutDepsChanged fresh st0 q0 (flags w) q)) eqn:R2;
  destruct (runsWhen w (fun st0 q0 => shutdownTimerDepsChanged st0 q0 (flags w) q)) eqn:R3;
  try apply oweLogout_not_held_back in R1;
  try apply logout_not_held_back in R2;
  try apply shutdownTimer_not_held_back in R3;
  unfold effectOweLogout, effectLogout, effectShutdownTimer;
  repeat match goal with H : _ = false |- _ => rewrite H end;
  reflexivity.
Qed.

End DependencyArrays.

(** ** What a commit leaves behind *)

Section CommitFields.

Variables (w : World) (q : QueryResult).

Lemma logout_excludes_oweLogout (st : Flags) :
  logoutGuard st q = true -> oweLogoutGuard st q = false.
Proof.
  unfold logoutGuard, oweLogoutGuard. intro H.
  apply andb_prop in H. destruct H as [H _]. now rewrite H.
Qed.

Lemma commitAll_world :
  commitAll q w =
  mkWorld (flagsAfterEffects (flags w) q)
          (snd (usePreviousDistinct (hook w) (data q)))
          (Some (flags w, q)) true
          (Some (render (flags w) q (fst (usePreviousDistinct (hook w) (data q)))))
          (now w)
          (timers w ++ startedTimers (flags w) q (now w))
          (log w ++ map TimeoutSet (startedTimers (flags w) q (now w))).
Proof.
  unfold commitAll, flagsAfterEffects, startedTimers.
  destruct (logoutGuard (flags w) q) eqn:G2.
  - unfold effectOweLogout, effectLogout, effectShutdownTimer.
    rewrite G2, (logout_excludes_oweLogout _ G2).
    destruct (shutdownTimerGuard (flags w) q); unfold_setters; simpl;
      rewrite <- ?app_assoc; simpl; rewrite ?app_nil_r; reflexivity.
  - unfold effectOweLogout, effectLogout, effectShutdownTimer. rewrite G2.
    destruct (oweLogoutGuard (flags w) q), (shutdownTimerGuard (flags w) q);
      unfold_setters; simpl; rewrite ?app_nil_r;
      destruct (flags w); reflexivity.
Qed.

End CommitFields.

(** ** The invariant of reachable worlds *)

Section InvariantProof.

Lemma In_removeNth {A} (x : A) (i : nat) (l : list A) :
  In x (removeNth i l) -> In x l.
Proof.
  revert i. induction l as [|y l IH]; intros [|i] H; simpl in *; auto.
  destruct H as [H|H]; [now left | right; eauto].
Qed.

Lemma oweLogout_excludes_logout (st : Flags) (q : QueryResult) :
  oweLogoutGuard st q = true -> logoutGuard st q = false.
Proof.
  intro H. destruct (logoutGuard st q) eqn:G; [|reflexivity].
  apply logout_excludes_oweLogout in G. congruence.
Qed.

Lemma shutdownTimerGuard_not_started (st : Flags) (q : QueryResult) :
  shutdownTimerGuard st q = true -> startShutdownTimer st = false.
Proof.
  unfold shutdownTimerGuard. intro H.
  apply andb_prop in H. destruct H as [H _].
  apply andb_prop in H. destruct H as [_ H].
  now apply negb_true_iff in H.
Qed.

Lemma startedTimers_spec (st : Flags) (q : QueryResult) (now0 : N) (t : Timer) :
  In t (startedTimers st q now0) ->
  setAt t = now0 /\
  delay t = match callback t with
            | LogoutCallback => 1000%N
            | ShutdownCompleteCallback => (30 * MS_PER_SECOND)%N
            end.
Proof.
  unfold startedTimers. intro H. apply in_app_or in H.
  destruct (logoutGuard st q), (shutdownTimerGuard st q); simpl in H;
    destruct H as [H|H]; try contradiction;
    destruct H as [<-|[]]; simpl; auto.
Qed.

Lemma startedTimers_shutdown_count (st : Flags) (q : QueryResult) (now0 : N) :
  List.length (filter isShutdownTimeout (map TimeoutSet (startedTimers st q now0)))
  = if shutdownTimerGuard st q then 1 else 0.
Proof.
  unfold startedTimers.
  destruct (logoutGuard st q), (shutdownTimerGuard st q); reflexivity.
Qed.

Lemma invariant_mount (persisted : bool) (t : N) : Invariant (mount persisted t).
Proof.
  constructor; simpl; try easy.
Qed.

Lemma invariant_commit (w : World) (q : QueryResult) (fresh : bool) :
  Invariant w -> Invariant (commit q fresh w).
Proof.
  intros [S P L C Sc Si].
  destruct (throwGuard (flags w) q) as [e|] eqn:TG.
  - unfold commit. rewrite TG.
    constructor; simpl; auto. discriminate.
  - rewrite (commit_runs_open_guards w q fresh S TG), commitAll_world.
    constructor; simpl.
    + unfold Settled, flagsAfterEffects. simpl. repeat split; intro G.
      * now rewrite (oweLogout_excludes_logout _ _ G), G.
      * now rewrite G.
      * now rewrite G.
    + intros t H. apply in_app_or in H. apply in_or_app.
      destruct H as [H|H]; [left; auto | right; now apply in_map].
    + intros t H. apply in_app_or in H. destruct H as [H|H]; [auto|].
      apply in_map_iff in H. destruct H as (t' & E & H).
      injection E as ->. apply startedTimers_spec in H.
      destruct H as [-> H]. split; [lia | exact H].
    + intro H. destruct (C H) as (t & I & Cb & D).
      exists t. repeat split; auto. apply in_or_app. now left.
    + intro H. injection H as H. apply render_renders in H.
      destruct H as [_ H]. apply selectScreen_complete in H. tauto.
    + unfold shutdownTimeouts in *. simpl.
      rewrite filter_app, length_app, startedTimers_shutdown_count, Si.
      destruct (shutdownTimerGuard (flags w) q) eqn:G.
      * now rewrite (shutdownTimerGuard_not_started _ _ G).
      * now rewrite Nat.add_0_r.
Qed.

Lemma invariant_fire (w : World) (i : nat) : Invariant w -> Invariant (fire i w).
Proof.
  intros [S P L C Sc Si]. unfold fire.
  destruct (nth_error (timers w) i) as [t|] eqn:Nth; [|now constructor].
  destruct (due t <=? now w)%N eqn:Due; [|now constructor].
  apply N.leb_le in Due. apply nth_error_In in Nth.
  destruct (callback t) eqn:Cb; simpl.
  - constructor; simpl; auto.
    + intros t' H. apply in_or_app. left. eauto using In_removeNth.
    + intros t' H. apply in_app_or in H. destruct H as [H|H]; [auto|].
      simpl in H. intuition discriminate.
    + intro H. destruct (C H) as (t' & I & Cb' & D).
      exists t'. repeat split; auto. apply in_or_app. now left.
    + unfold shutdownTimeouts in *. simpl.
      now rewrite filter_app, length_app, Si, Nat.add_0_r.
  - destruct (mounted w); unfold_setters; simpl.
    + constructor; simpl; auto.
      * eauto using In_removeNth.
      * intros _. exists t. auto.
    + constructor; simpl; auto. eauto using In_removeNth.
Qed.

Lemma invariant_step (w : World) (ev : Event) : Invariant w -> Invariant (step w ev).
Proof.
  intro I. destruct ev as [q fresh|k|k|ms|i|]; simpl.
  - destruct (mounted w); [now apply invariant_commit | exact I].
  - destruct (mounted w); [|exact I].
    destruct I as [S P L C Sc Si]. unfold mutate, onMutate. unfold_setters.
    constructor; simpl; auto.
    + intros t H. apply in_or_app. left. auto.
    + intros t H. apply in_app_or in H. destruct H as [H|H]; [auto|].
      simpl in H. intuition discriminate.
    + intro H. destruct (C H) as (t' & I & Cb' & D).
      exists t'. repeat split; auto. apply in_or_app. now left.
    + unfold shutdownTimeouts in *. simpl.
      now rewrite filter_app, length_app, Si, Nat.add_0_r.
  - destruct I as [S P L C Sc Si]. unfold onSuccess. unfold_setters.
    constructor; simpl; auto.
    + intros t H. apply in_or_app. left. auto.
    + intros t H. apply in_app_or in H. destruct H as [H|H]; [auto|].
      simpl in H. intuition discriminate.
    + intro H. destruct (C H) as (t' & I & Cb' & D).
      exists t'. repeat split; auto. apply in_or_app. now left.
    + unfold shutdownTimeouts in *. simpl.
      now rewrite filter_app, length_app, Si, Nat.add_0_r.
  - destruct I as [S P L C Sc Si].
    constructor; simpl; auto.
    + intros t H. destruct (L t H) as [H1 H2]. split; [lia | exact H2].
    + intro H. destruct (C H) as (t' & I & Cb' & D).
      exists t'. repeat split; auto. lia.
  - now apply invariant_fire.
  - apply invariant_mount.
Qed.

Lemma reachable_invariant (w : World) : Reachable w -> Invariant w.
Proof.
  induction 1 as [persisted t | w ev R IH].
  - apply invariant_mount.
  - now apply invariant_step.
Qed.

End InvariantProof.

(** ** Steps, cell by cell *)

Section StepFacts.

Ltac commit_cases w q fr :=
  unfold commit;
  destruct (throwGuard (flags w) q); [try reflexivity|];
  destruct (usePreviousDistinct (hook w) (data q));
  destruct (runsWhen w (fun st0 q0 => oweLogoutDepsChanged fr st0 q0 (flags w) q));
  destruct (runsWhen w (fun st0 q0 => logoutDepsChanged fr st0 q0 (flags w) q));
  destruct (runsWhen w (fun st0 q0 => shutdownTimerDepsChanged st0 q0 (flags w) q));
  unfold effectOweLogout, effectLogout, effectShutdownTimer.

Lemma commit_triggered (w : World) (q : QueryResult) (fr : bool) :
  triggered (flags (commit q fr w)) = triggered (flags w).
Proof.
  commit_cases w q fr;
    destruct (oweLogoutGuard (flags w) q), (logoutGuard (flags w) q),
      (shutdownTimerGuard (flags w) q); reflexivity.
Qed.

Lemma commit_now (w : World) (q : QueryResult) (fr : bool) :
  now (commit q fr w) = now w.
Proof.
  commit_cases w q fr;
    destruct (oweLogoutGuard (flags w) q), (logoutGuard (flags w) q),
      (shutdownTimerGuard (flags w) q); reflexivity.
Qed.

Lemma commit_mounted (w : World) (q : QueryResult) (fr : bool) :
  throwGuard (flags w) q = None -> mounted (commit q fr w) = true.
Proof.
  intro G. unfold commit. rewrite G.
  destruct (usePreviousDistinct (hook w) (data q));
  destruct (runsWhen w (fun st0 q0 => oweLogoutDepsChanged fr st0 q0 (flags w) q));
  destruct (runsWhen w (fun st0 q0 => logoutDepsChanged fr st0 q0 (flags w) q));
  destruct (runsWhen w (fun st0 q0 => shutdownTimerDepsChanged st0 q0 (flags w) q));
  unfold effectOweLogout, effectLogout, effectShutdownTimer;
  destruct (oweLogoutGuard (flags w) q), (logoutGuard (flags w) q),
    (shutdownTimerGuard (flags w) q); reflexivity.
Qed.

(** A commit whose guards are all closed changes no cell, timer or log entry. *)
Lemma commit_closed_guards (w : World) (q : QueryResult) (fr : bool) :
  oweLogoutGuard (flags w) q = false ->
  logoutGuard (flags w) q = false ->
  shutdownTimerGuard (flags w) q = false ->
  flags (commit q fr w) = flags w /\
  timers (commit q fr w) = timers w /\
  log (commit q fr w) = log w.
Proof.
  intros G1 G2 G3. commit_cases w q fr; [now repeat split| ..];
    rewrite ?G1, ?G2, ?G3; now repeat split.
Qed.

Lemma fire_triggered (w : World) (i : nat) :
  triggered (flags (fire i w)) = triggered (flags w).
Proof.
  unfold fire. destruct (nth_error (timers w) i) as [t|]; [|reflexivity].
  destruct (due t <=? now w)%N; [|reflexivity].
  destruct (callback t); simpl; [reflexivity|].
  destruct (mounted w); reflexivity.
Qed.

Lemma fire_shouldLogout (w : World) (i : nat) :
  shouldLogoutOnRunning (flags (fire i w)) = shouldLogoutOnRunning (flags w).
Proof.
  unfold fire. destruct (nth_error (timers w) i) as [t|]; [|reflexivity].
  destruct (due t <=? now w)%N; [|reflexivity].
  destruct (callback t); simpl; [reflexivity|].
  destruct (mounted w); reflexivity.
Qed.

(** Within the life of a page no step takes [triggered] back to [false]. *)
Lemma step_keeps_triggered (w : World) (ev : Event) :
  isPageLoad ev = false ->
  triggered (flags w) = true -> triggered (flags (step w ev)) = true.
Proof.
  intros NP T. destruct ev as [q fr|k|k|ms|i|]; simpl; try discriminate.
  - destruct (mounted w); [|exact T]. now rewrite commit_triggered.
  - destruct (mounted w); [reflexivity | exact T].
  - exact T.
  - exact T.
  - now rewrite fire_triggered.
Qed.

Lemma run_app (w : World) (evs evs' : list Event) :
  run w (evs ++ evs') = run (run w evs) evs'.
Proof. apply fold_left_app. Qed.

Lemma run_keeps_triggered (evs : list Event) (w : World) :
  forallb (fun ev => negb (isPageLoad ev)) evs = true ->
  triggered (flags w) = true -> triggered (flags (run w evs)) = true.
Proof.
  revert w. induction evs as [|ev evs IH]; intros w H T; simpl in *; [exact T|].
  apply andb_prop in H. destruct H as [H1 H2].
  apply IH; [exact H2|]. apply step_keeps_triggered; [|exact T].
  now apply negb_true_iff.
Qed.

Lemma reachable_run (evs : list Event) (w : World) :
  Reachable w -> Reachable (run w evs).
Proof.
  revert w. induction evs as [|ev evs IH]; intros w R; simpl; [exact R|].
  apply IH. now constructor.
Qed.

(** *** Timers: what firing does *)

Lemma fire_before_due (w : World) (i : nat) (t : Timer) :
  nth_error (timers w) i = Some t -> (now w < due t)%N -> fire i w = w.
Proof.
  intros Nth Early. unfold fire. rewrite Nth.
  apply N.leb_gt in Early. now rewrite Early.
Qed.

Lemma fire_logout (w : World) (i : nat) (t : Timer) :
  nth_error (timers w) i = Some t -> callback t = LogoutCallback ->
  (due t <= now w)%N ->
  log (fire i w) = log w ++ [CancelQueries; RemoveJwt; Navigate "/"] /\
  timers (fire i w) = removeNth i (timers w) /\
  flags (fire i w) = flags w.
Proof.
  intros Nth Cb Due. unfold fire. rewrite Nth.
  apply N.leb_le in Due. rewrite Due, Cb. simpl. now repeat split.
Qed.

Lemma fire_shutdownComplete (w : World) (i : nat) (t : Timer) :
  nth_error (timers w) i = Some t -> callback t = ShutdownCompleteCallback ->
  (due t <= now w)%N -> mounted w = true ->
  shutdownComplete (flags (fire i w)) = true /\
  timers (fire i w) = removeNth i (timers w) /\
  log (fire i w) = log w.
Proof.
  intros Nth Cb Due M. unfold fire. rewrite Nth.
  apply N.leb_le in Due. rewrite Due, Cb. simpl. rewrite M. now repeat split.
Qed.

Lemma removeNth_last {A} (l : list A) (x : A) :
  removeNth (List.length l) (l ++ [x]) = l.
Proof. induction l as [|y l IH]; simpl; [reflexivity | now rewrite IH]. Qed.

Lemma nth_error_last {A} (l : list A) (x : A) :
  nth_error (l ++ [x]) (List.length l) = Some x.
Proof. induction l as [|y l IH]; simpl; auto. Qed.

(** *** Counting logouts *)

Lemma filter_removeNth {A} (f : A -> bool) (l : list A) (i : nat) (x : A) :
  nth_error l i = Some x ->
  List.length (filter f (removeNth i l)) + (if f x then 1 else 0)
  = List.length (filter f l).
Proof.
  revert i. induction l as [|y l IH]; intros [|i] H; simpl in *; try discriminate.
  - injection H as ->. destruct (f x); simpl; lia.
  - specialize (IH i H). destruct (f y); simpl; lia.
Qed.

Lemma fire_logouts (w : World) (i : nat) :
  navigations (fire i w) + pendingLogouts (fire i w)
  = navigations w + pendingLogouts w.
Proof.
  unfold fire. destruct (nth_error (timers w) i) as [t|] eqn:Nth; [|reflexivity].
  destruct (due t <=? now w)%N; [|reflexivity].
  pose proof (filter_removeNth isLogoutTimer _ _ _ Nth) as F.
  unfold isLogoutTimer at 2 in F.
  unfold navigations, pendingLogouts.
  destruct (callback t); simpl.
  - rewrite filter_app, length_app. simpl. lia.
  - destruct (mounted w); simpl; lia.
Qed.

Lemma step_logouts (w : World) (ev : Event) :
  isPageLoad ev = false -> leavesRunning ev = false ->
  shouldLogoutOnRunning (flags w) = false ->
  shouldLogoutOnRunning (flags (step w ev)) = false /\
  navigations (step w ev) + pendingLogouts (step w ev)
  = navigations w + pendingLogouts w.
Proof.
  intros NP NL F. destruct ev as [q fr|k|k|ms|i|]; simpl in *; try discriminate.
  - destruct (mounted w); [|now split].
    apply negb_false_iff in NL.
    destruct (commit_closed_guards w q fr) as (E1 & E2 & E3).
    + unfold oweLogoutGuard. now rewrite NL.
    + unfold logoutGuard. now rewrite F, andb_false_r.
    + unfold shutdownTimerGuard.
      apply strictEq_true in NL. now rewrite NL.
    + unfold navigations, pendingLogouts. now rewrite E1, E2, E3.
  - destruct (mounted w); [|now split].
    split; [exact F|]. unfold navigations, pendingLogouts. simpl.
    rewrite filter_app, length_app. simpl. lia.
  - split; [exact F|]. unfold navigations, pendingLogouts. simpl.
    rewrite filter_app, length_app. simpl. lia.
  - now split.
  - split; [now rewrite fire_shouldLogout | apply fire_logouts].
Qed.

Lemma run_logouts (evs : list Event) (w : World) :
  forallb (fun ev => negb (isPageLoad ev) && negb (leavesRunning ev)) evs = true ->
  shouldLogoutOnRunning (flags w) = false ->
  navigations (run w evs) + pendingLogouts (run w evs)
  = navigations w + pendingLogouts w.
Proof.
  revert w. induction evs as [|ev evs IH]; intros w H F; simpl in *; [reflexivity|].
  apply andb_prop in H. destruct H as [H1 H2].
  apply andb_prop in H1. destruct H1 as [NP NL].
  apply negb_true_iff in NP, NL.
  destruct (step_logouts w ev NP NL F) as [F' E].
  rewrite (IH _ H2 F'). exact E.
Qed.

(** *** The hook before any status was seen *)

Lemma observe_undefined (n : nat) :
  observe None (repeat undefined n) =
  match n with
  | O => None
  | S _ => Some (mkRefs undefined undefined)
  end.
Proof.
  destruct n as [|n]; [reflexivity|]. simpl.
  induction n as [|n IH]; [reflexivity | exact IH].
Qed.

Lemma previousDistinct_first_defined (n : nat) (s : string) :
  fst (usePreviousDistinct (observe None (repeat undefined n)) (Some s)) = undefined.
Proof.
  rewrite observe_undefined. destruct n; reflexivity.
Qed.

End StepFacts.

(** ** A commit on a reachable world *)

Section ReachableCommit.

Variables (w : World) (q : QueryResult) (fresh : bool).

Hypothesis reachable : Reachable w.
Hypothesis is_mounted : mounted w = true.
Hypothesis no_throw : throwGuard (flags w) q = None.

Lemma reachable_commit :
  step w (Commit q fresh) =
  mkWorld (flagsAfterEffects (flags w) q)
          (snd (usePreviousDistinct (hook w) (data q)))
          (Some (flags w, q)) true
          (Some (render (flags w) q (fst (usePreviousDistinct (hook w) (data q)))))
          (now w)
          (timers w ++ startedTimers (flags w) q (now w))
          (log w ++ map TimeoutSet (startedTimers (flags w) q (now w))).
Proof.
  simpl. rewrite is_mounted.
  rewrite (commit_runs_open_guards w q fresh); [apply commitAll_world | | exact no_throw].
  apply reachable_invariant, reachable.
Qed.

Lemma started_when_shutting_down :
  data q = shutting_down ->
  isError q = true \/ 0 < failureCount q ->
  startShutdownTimer (flags w) = false ->
  startedTimers (flags w) q (now w)
  = [mkTimer (now w) (30 * MS_PER_SECOND) ShutdownCompleteCallback]
  /\ shutdownTimerGuard (flags w) q = true.
Proof.
  intros D F S.
  assert (G : shutdownTimerGuard (flags w) q = true).
  { unfold shutdownTimerGuard. rewrite D, S. simpl.
    destruct F as [F|F]; [now rewrite F|].
    apply Nat.ltb_lt in F. rewrite F. apply orb_true_r. }
  split; [|exact G].
  unfold startedTimers, logoutGuard. rewrite G, D. reflexivity.
Qed.

Lemma started_when_back_running :
  data q = running ->
  shouldLogoutOnRunning (flags w) = true ->
  startedTimers (flags w) q (now w) = [mkTimer (now w) 1000 LogoutCallback]
  /\ logoutGuard (flags w) q = true.
Proof.
  intros D S.
  assert (G : logoutGuard (flags w) q = true).
  { unfold logoutGuard. now rewrite D, S. }
  split; [|exact G].
  unfold startedTimers, shutdownTimerGuard. rewrite G, D. reflexivity.
Qed.

End ReachableCommit.

(** ** A page that triggered a transition stays mounted *)

Section StaysMounted.

Lemma step_stays_mounted (w : World) (ev : Event) :
  isPageLoad ev = false ->
  mounted w = true -> triggered (flags w) = true ->
  mounted (step w ev) = true.
Proof.
  intros NP M T. destruct ev as [q fr|k|k|ms|i|]; simpl; try discriminate; auto.
  - rewrite M. apply commit_mounted. apply throwGuard_None. now right.
  - now rewrite M.
  - unfold fire. destruct (nth_error (timers w) i) as [t|]; [|exact M].
    destruct (due t <=? now w)%N; [|exact M].
    destruct (callback t); simpl; [exact M|]. now rewrite M.
Qed.

Lemma run_stays_mounted (evs : list Event) (w : World) :
  forallb (fun ev => negb (isPageLoad ev)) evs = true ->
  mounted w = true -> triggered (flags w) = true ->
  mounted (run w evs) = true.
Proof.
  revert w. induction evs as [|ev evs IH]; intros w H M T; simpl in *; [exact M|].
  apply andb_prop in H. destruct H as [H1 H2].
  apply negb_true_iff in H1.
  apply (IH _ H2).
  - now apply step_stays_mounted.
  - now apply step_keeps_triggered.
Qed.

Lemma fire_unmounted (w : World) (i : nat) (t : Timer) :
  nth_error (timers w) i = Some t -> callback t = ShutdownCompleteCallback ->
  (due t <= now w)%N -> mounted w = false ->
  flags (fire i w) = flags w /\
  timers (fire i w) = removeNth i (timers w).
Proof.
  intros Nth Cb Due M. unfold fire. rewrite Nth.
  apply N.leb_le in Due. rewrite Due, Cb. simpl. rewrite M. now split.
Qed.

End StaysMounted.

(** * Properties of the component *)

(** ** C1: the masking rule *)

(** C1, as the code has it.  [statusToShow] is the previous status when
    [triggered] is true and the polled status is ['running'], and the polled
    status otherwise.  When [triggered] is true, the polled status is
    ['running'], the previous status is ['shutting-down'] and the query is not
    loading, the render shows the shutting-down screen while
    [shutdownComplete] is false and the terminal "shutdown complete" message
    once it is true; it never shows the children. *)
Theorem statusToShow_masks_running (st : Flags) (q : QueryResult) (p : Status) :
  (triggered st = true -> data q = running ->
   statusToShow st (data q) (prevStatus p) = Some (prevStatus p)) /\
  (~ (triggered st = true /\ data q = running) ->
   statusToShow st (data q) (prevStatus p) = data q) /\
  (triggered st = true -> data q = running ->
   prevStatus p = "shutting-down" -> isLoading q = false ->
   render st q p
   = Renders (if shutdownComplete st then ShutdownCompleteScreen
              else ShuttingDownScreen)
   /\ render st q p <> Renders ChildrenScreen).
Proof.
  split; [apply statusToShow_masked|]. split; [apply statusToShow_plain|].
  intros T D P L.
  assert (E : render st q p
              = Renders (if shutdownComplete st then ShutdownCompleteScreen
                         else ShuttingDownScreen)).
  { apply render_renders. split.
    - apply throwGuard_None. now right.
    - rewrite (statusToShow_masked st q p T D), P.
      unfold selectScreen. rewrite L. simpl.
      destruct (shutdownComplete st); reflexivity. }
  split; [exact E|]. rewrite E. destruct (shutdownComplete st); discriminate.
Qed.

(** The masked render at the end of a shutdown whose timer has run out. *)
Lemma statusToShow_masks_running_witness :
  render Scenario.afterShutdownTimer (Scenario.success "running") shutting_down
  = Renders ShutdownCompleteScreen
  /\ render Scenario.afterShutdownTimer (Scenario.success "running") shutting_down
     <> Renders ChildrenScreen.
Proof.
  apply (statusToShow_masks_running Scenario.afterShutdownTimer
           (Scenario.success "running") shutting_down); reflexivity.
Defined.

(** C1 as stated fails: [triggered] is true, the polled status is ['running']
    and the previous status is ['shutting-down'], yet the screen is the
    terminal message and not the shutting-down screen.  The page gets there:
    it is the last render of [Scenario.shutdownThenBack]. *)
Lemma masked_running_shows_terminal_message :
  triggered Scenario.afterShutdownTimer = true /\
  data (Scenario.success "running") = running /\
  prevStatus shutting_down = "shutting-down" /\
  render Scenario.afterShutdownTimer (Scenario.success "running") shutting_down
  <> Renders ShuttingDownScreen /\
  flags (run (mount false 0) (removelast Scenario.shutdownThenBack))
  = Scenario.afterShutdownTimer /\
  screen (run (mount false 0) Scenario.shutdownThenBack)
  = Some (Renders ShutdownCompleteScreen).
Proof.
  repeat split; try reflexivity. discriminate.
Qed.

(** ** C2: the terminal message *)

(** C2, as the code has it.  The terminal "shutdown probably complete"
    message is rendered exactly when the render is not cut short by the
    query-error guard, the initial fetch is not in flight, [statusToShow]
    (the polled status after masking) is ['shutting-down'] and
    [shutdownComplete] is true. *)
Theorem terminal_message_iff (st : Flags) (q : QueryResult) (p : Status) :
  render st q p = Renders ShutdownCompleteScreen <->
  throwGuard st q = None /\
  isLoading q = false /\
  statusToShow st (data q) (prevStatus p) = shutting_down /\
  shutdownComplete st = true.
Proof.
  rewrite render_renders, selectScreen_complete. tauto.
Qed.

(** C2 as stated fails both ways.  The message is rendered although the
    polled status is ['running'] (it is masked by the previous status); and
    with the polled status ['shutting-down'], [shutdownComplete] true and no
    fetch in flight the message is not rendered when the query has an error
    and [triggered] is false: the render throws. *)
Lemma terminal_message_not_by_polled_status :
  (isLoading (Scenario.success "running") = false /\
   data (Scenario.success "running") <> shutting_down /\
   render Scenario.afterShutdownTimer (Scenario.success "running") shutting_down
   = Renders ShutdownCompleteScreen) /\
  (isLoading (Scenario.refetchError "shutting-down" "fetch failed") = false /\
   data (Scenario.refetchError "shutting-down" "fetch failed") = shutting_down /\
   flags (run (mount false 0) Scenario.elsewhereThenTimer)
   = mkFlags false false true true /\
   shutdownComplete (mkFlags false false true true) = true /\
   render (mkFlags false false true true)
          (Scenario.refetchError "shutting-down" "fetch failed") running
   = Throws "fetch failed").
Proof.
  repeat split; try reflexivity. discriminate.
Qed.

(** ** C3: the shutdown timer *)

(** C3, as the code has it.  When a render commits (it returns: it is not
    cut short by the query-error guard) with the status ['shutting-down'],
    the probe failing (query error or failure count above zero) and the timer
    not yet started, it starts one 30-second timer and sets
    [startShutdownTimer]; a page never starts a second one.  The timer cannot
    fire before it is due.  When it fires, [shutdownComplete] becomes true if
    the component is still mounted, as it always is on a page that triggered
    the transition; if a render has thrown in between, the component is
    unmounted and the expiry changes no cell.  On every world the page can
    reach, a rendered terminal screen means that a shutdown timer was started
    at least 30 seconds before. *)
Theorem shutdown_timer_started_once
        (w : World) (q : QueryResult) (fresh : bool)
        (Hreach : Reachable w)
        (Hmounted : mounted w = true)
        (Hrendered : throwGuard (flags w) q = None)
        (Hstatus : data q = shutting_down)
        (Hfailing : isError q = true \/ 0 < failureCount q)
        (Hidle : startShutdownTimer (flags w) = false) :
  let t := mkTimer (now w) (30 * MS_PER_SECOND) ShutdownCompleteCallback in
  let w1 := step w (Commit q fresh) in
  startShutdownTimer (flags w1) = true /\
  timers w1 = timers w ++ [t] /\
  log w1 = log w ++ [TimeoutSet t] /\
  shutdownTimeouts w1 = 1 /\
  (forall w', Reachable w' -> shutdownTimeouts w' <= 1) /\
  (forall w2 i, nth_error (timers w2) i = Some t ->
     ((now w2 < now w + 30000)%N -> fire i w2 = w2) /\
     ((now w + 30000 <= now w2)%N -> mounted w2 = true ->
      shutdownComplete (flags (fire i w2)) = true /\
      timers (fire i w2) = removeNth i (timers w2)) /\
     ((now w + 30000 <= now w2)%N -> mounted w2 = false ->
      flags (fire i w2) = flags w2 /\
      timers (fire i w2) = removeNth i (timers w2))) /\
  (triggered (flags w) = true ->
   forall evs, forallb (fun ev => negb (isPageLoad ev)) evs = true ->
               mounted (run w1 evs) = true) /\
  (forall w', Reachable w' ->
     screen w' = Some (Renders ShutdownCompleteScreen) ->
     exists t', In (TimeoutSet t') (log w') /\
                callback t' = ShutdownCompleteCallback /\
                delay t' = 30000%N /\
                (setAt t' + 30000 <= now w')%N).
Proof.
  intros t w1.
  assert (M1 : triggered (flags w) = true ->
               forall evs, forallb (fun ev => negb (isPageLoad ev)) evs = true ->
                           mounted (run w1 evs) = true).
  { intros T evs H. apply run_stays_mounted; [exact H| |].
    - apply step_stays_mounted; auto.
    - apply step_keeps_triggered; auto. }
  revert M1. subst t w1.
  rewrite (reachable_commit w q fresh Hreach Hmounted Hrendered).
  destruct (started_when_shutting_down w q Hstatus Hfailing Hidle) as [E G].
  rewrite E. simpl. intro M1.
  split; [now rewrite G|].
  split; [reflexivity|]. split; [reflexivity|].
  split; [|split; [|split; [|split]]].
  - pose proof (inv_single w (reachable_invariant w Hreach)) as Si.
    unfold shutdownTimeouts in *. simpl.
    rewrite filter_app, length_app, Si, Hidle. reflexivity.
  - intros w' R. rewrite (inv_single w' (reachable_invariant w' R)).
    destruct (startShutdownTimer (flags w')); lia.
  - intros w2 i Nth. split; [|split].
    + intros Early. apply (fire_before_due w2 i _ Nth). exact Early.
    + intros Due M.
      destruct (fire_shutdownComplete w2 i _ Nth eq_refl Due M) as (C & T & _).
      now split.
    + intros Due M. apply (fire_unmounted w2 i _ Nth eq_refl Due M).
  - exact M1.
  - intros w' R Sc.
    pose proof (reachable_invariant w' R) as I.
    destruct (inv_complete w' I (inv_screen w' I Sc)) as (t' & L & Cb & D).
    destruct (inv_logged w' I t' L) as [_ Dl]. rewrite Cb in Dl.
    exists t'. unfold due in D. rewrite Dl in D.
    repeat split; auto.
Qed.

(** The first failing poll of [Scenario.shutdownThenBack] starts the timer. *)
Lemma shutdown_timer_started_once_witness :
  startShutdownTimer
    (flags (step (run (mount false 0) (firstn 5 Scenario.shutdownThenBack))
                 (Commit (Scenario.retrying "shutting-down" 1) false)))
  = true.
Proof.
  refine (proj1 (shutdown_timer_started_once
                   (run (mount false 0) (firstn 5 Scenario.shutdownThenBack))
                   (Scenario.retrying "shutting-down" 1) false _ _ _ _ _ _)).
  - apply reachable_run. constructor.
  - reflexivity.
  - reflexivity.
  - reflexivity.
  - right. simpl. lia.
  - reflexivity.
Defined.

(** C3 as stated fails.  On a page that did not trigger the shutdown, a
    render with the status ['shutting-down'], a failure count of one and the
    timer not started starts the timer, as claimed.  The probe is retried
    and gives up; the render with the error throws and the component is
    unmounted.  The 30 seconds pass, the timer runs, and [shutdownComplete]
    is still false. *)
Lemma shutdown_timer_expires_unmounted :
  let w := run (mount false 0) Scenario.shutdownFromElsewhere in
  let q := Scenario.retrying "shutting-down" 1 in
  let w' := run (mount false 0) Scenario.elsewhereThenError in
  mounted w = true /\
  data q = shutting_down /\
  0 < failureCount q /\
  startShutdownTimer (flags w) = false /\
  timers (step w (Commit q false))
  = [mkTimer 0 (30 * MS_PER_SECOND) ShutdownCompleteCallback] /\
  run (step w (Commit q false)) (skipn 4 Scenario.elsewhereThenError) = w' /\
  now w' = 30000%N /\
  timers w' = [] /\
  mounted w' = false /\
  shutdownComplete (flags w') = false.
Proof.
  vm_compute. repeat split; try reflexivity; try lia.
Qed.

(** ** C4: logging out once the backend is back *)

(** C4.  When a render commits with the status ['running'] while
    [shouldLogoutOnRunning] is true, the flag is cleared in that commit and
    nothing else is done yet but to start a 1-second timer.  The timer cannot
    fire before the second is over; when it fires, the queries are canceled,
    the token is removed and the page navigates to ['/'], in this order.  As
    long as the status stays ['running'] and the page is not reloaded, the
    navigations done and still pending add up to exactly one more than
    before; letting the second pass and the timer fire gives that one
    navigation. *)
Theorem logout_after_one_second
        (w : World) (q : QueryResult) (fresh : bool)
        (Hreach : Reachable w)
        (Hmounted : mounted w = true)
        (Hrendered : throwGuard (flags w) q = None)
        (Hstatus : data q = running)
        (Howed : shouldLogoutOnRunning (flags w) = true) :
  let t := mkTimer (now w) 1000 LogoutCallback in
  let w1 := step w (Commit q fresh) in
  shouldLogoutOnRunning (flags w1) = false /\
  timers w1 = timers w ++ [t] /\
  log w1 = log w ++ [TimeoutSet t] /\
  (forall w2 i, nth_error (timers w2) i = Some t ->
     ((now w2 < now w + 1000)%N -> fire i w2 = w2) /\
     ((now w + 1000 <= now w2)%N ->
      log (fire i w2) = log w2 ++ [CancelQueries; RemoveJwt; Navigate "/"] /\
      timers (fire i w2) = removeNth i (timers w2))) /\
  (forall evs,
     forallb (fun ev => negb (isPageLoad ev) && negb (leavesRunning ev)) evs = true ->
     navigations (run w1 evs) + pendingLogouts (run w1 evs)
     = navigations w + pendingLogouts w + 1) /\
  (let w3 := run w1 [Elapse 1000; FireTimer (List.length (timers w))] in
   log w3 = log w1 ++ [CancelQueries; RemoveJwt; Navigate "/"] /\
   timers w3 = timers w /\
   navigations w3 = navigations w + 1).
Proof.
  intros t w1. subst t w1.
  rewrite (reachable_commit w q fresh Hreach Hmounted Hrendered).
  destruct (started_when_back_running w q Hstatus Howed) as [E G].
  rewrite E. simpl map.
  assert (F : shouldLogoutOnRunning (flagsAfterEffects (flags w) q) = false).
  { unfold flagsAfterEffects. simpl. now rewrite G. }
  split; [exact F|]. split; [reflexivity|]. split; [reflexivity|].
  split; [|split].
  - intros w2 i Nth. split.
    + intros Early. apply (fire_before_due w2 i _ Nth). exact Early.
    + intros Due.
      destruct (fire_logout w2 i _ Nth eq_refl Due) as (L & T & _). now split.
  - intros evs H. rewrite run_logouts; [|exact H|exact F].
    unfold navigations, pendingLogouts. simpl.
    rewrite !filter_app, !length_app. simpl. lia.
  - simpl run. unfold fire. simpl timers. simpl now.
    rewrite nth_error_last. unfold due. simpl setAt. simpl delay.
    replace (now w + 1000 <=? now w + 1000)%N with true
      by (symmetry; apply N.leb_le; lia).
    simpl. rewrite removeNth_last. repeat split.
    unfold navigations. simpl.
    rewrite !filter_app, !length_app. simpl. lia.
Qed.

(** The last commit of [Scenario.shutdownThenBack] sees the backend again. *)
Lemma logout_after_one_second_witness :
  shouldLogoutOnRunning
    (flags (step (run (mount false 0) (removelast Scenario.shutdownThenBack))
                 (Commit (Scenario.success "running") false)))
  = false.
Proof.
  apply (logout_after_one_second
           (run (mount false 0) (removelast Scenario.shutdownThenBack))
           (Scenario.success "running") false).
  - apply reachable_run. constructor.
  - reflexivity.
  - reflexivity.
  - reflexivity.
  - reflexivity.
Defined.

(** ** C5: restart() and shutdown() *)

(** C5.  A call of [restart()] or [shutdown()] sets [triggered] in the very
    step that sends the mutation, before any answer.  The poll interval is
    [10 * MS_PER_SECOND] (10000 ms) while [triggered] is false and 500 ms
    while it is true: a call on a page that had not triggered yet takes it
    from 10000 ms down to 500 ms, and it stays 500 ms for as long as
    [triggered] is true.  When a mutation succeeds the status query is
    canceled. *)
Theorem mutation_sets_triggered (w : World) (k : MutationKind)
        (Hmounted : mounted w = true) :
  triggered (flags (step w (Call k))) = true /\
  log (step w (Call k)) = log w ++ [MutationSent k] /\
  refetchInterval (flags (step w (Call k))) = 500%N /\
  (forall st, triggered st = true -> refetchInterval st = 500%N) /\
  (forall st, triggered st = false -> refetchInterval st = 10000%N) /\
  (triggered (flags w) = false ->
   refetchInterval (flags w) = (10 * MS_PER_SECOND)%N /\
   (refetchInterval (flags (step w (Call k))) < refetchInterval (flags w))%N) /\
  (forall persisted t, refetchInterval (flags (mount persisted t)) = 10000%N) /\
  (forall evs, forallb (fun ev => negb (isPageLoad ev)) evs = true ->
               refetchInterval (flags (run (step w (Call k)) evs)) = 500%N) /\
  (forall w' k', log (step w' (MutationSucceeded k'))
                 = log w' ++ [StatusQueryCancel]).
Proof.
  assert (P : forall st, triggered st = true -> refetchInterval st = 500%N).
  { intros st T. unfold refetchInterval. now rewrite T. }
  assert (Q : forall st, triggered st = false -> refetchInterval st = 10000%N).
  { intros st T. unfold refetchInterval. now rewrite T. }
  assert (T : triggered (flags (step w (Call k))) = true).
  { simpl. now rewrite Hmounted. }
  split; [exact T|]. split; [simpl; now rewrite Hmounted|].
  split; [now apply P|]. split; [exact P|]. split; [exact Q|].
  split; [|split; [|split]].
  - intro U. rewrite (P _ T), (Q _ U). split; [reflexivity | lia].
  - reflexivity.
  - intros evs H. apply P. now apply run_keeps_triggered.
  - reflexivity.
Qed.

Lemma mutation_sets_triggered_witness :
  triggered (flags (step (run (mount false 0) (firstn 2 Scenario.shutdownThenBack))
                         (Call Shutdown))) = true.
Proof.
  refine (proj1 (mutation_sets_triggered
                   (run (mount false 0) (firstn 2 Scenario.shutdownThenBack))
                   Shutdown _)).
  reflexivity.
Defined.

(** ** C6: query errors *)



(** ** C7: the initial load *)

(** C7.  While the initial load is in flight (the polled status is
    [undefined], the query is loading and has no error) the render is the
    "checking backend" placeholder: it does not throw, and shows neither a
    transition screen nor the children. *)
Theorem initial_load_shows_checking_backend
        (st : Flags) (q : QueryResult) (p : Status)
        (Hstatus : data q = undefined)
        (Hloading : isLoading q = true)
        (Hfresh : error q = None) :
  render st q p = Renders CheckingBackendScreen /\
  (forall e, render st q p <> Throws e) /\
  render st q p <> Renders ShuttingDownScreen /\
  render st q p <> Renders RestartingScreen /\
  render st q p <> Renders ShutdownCompleteScreen /\
  render st q p <> Renders UnexpectedStateScreen /\
  render st q p <> Renders ChildrenScreen.
Proof.
  assert (E : render st q p = Renders CheckingBackendScreen).
  { apply render_renders. split.
    - apply throwGuard_None. now left.
    - unfold selectScreen. now rewrite Hloading. }
  rewrite E. repeat split; discriminate.
Qed.

Lemma initial_load_shows_checking_backend_witness :
  render (initialFlags false) Scenario.loading undefined
  = Renders CheckingBackendScreen.
Proof.
  apply (initial_load_shows_checking_backend
           (initialFlags false) Scenario.loading undefined); reflexivity.
Defined.

(** The [isLoading] test is what shows the placeholder, not the status: with
    the status [undefined] and the query no longer loading, the [switch]
    renders the children ([case undefined]), or the error guard throws. *)
Lemma undefined_status_when_not_loading (st : Flags) (q : QueryResult) (p : Status) :
  data q = undefined -> isLoading q = false ->
  render st q p = match throwGuard st q with
                  | Some e => Throws e
                  | None => Renders ChildrenScreen
                  end.
Proof.
  intros D L. unfold render, statusToShow, selectScreen.
  rewrite D, L. simpl. rewrite andb_false_r. reflexivity.
Qed.

(** ** C8: statuses outside the known ones *)

Lemma selectScreen_unknown (st : Flags) (q : QueryResult) (s : Status) :
  ~ knownStatus s -> isLoading q = false ->
  selectScreen st q s = UnexpectedStateScreen.
Proof.
  unfold knownStatus, selectScreen. intros U L. rewrite L.
  destruct s as [s|]; [|exfalso; apply U; now left].
  assert (N1 : (s =? "running") = false).
  { apply String.eqb_neq. intros ->. apply U. right. now left. }
  assert (N2 : (s =? "shutting-down") = false).
  { apply String.eqb_neq. intros ->. apply U. right. right. now left. }
  assert (N3 : (s =? "restarting") = false).
  { apply String.eqb_neq. intros ->. apply U. right. right. now right. }
  unfold shutting_down. simpl. now rewrite N1, N2, N3.
Qed.

(** C8, as the code has it.  For a status outside the known ones the render
    is the "unexpected state" screen whenever it gets as far as the [switch]:
    the query-error guard does not throw and the query is not loading.  The
    status never makes the render throw: a render only throws the query's own
    error, and only while [triggered] is false. *)
Theorem unknown_status_fallback (st : Flags) (q : QueryResult) (p : Status)
        (Hunknown : ~ knownStatus (data q)) :
  (throwGuard st q = None -> isLoading q = false ->
   render st q p = Renders UnexpectedStateScreen) /\
  (forall e, render st q p = Throws e ->
             error q = Some e /\ triggered st = false).
Proof.
  split.
  - intros G L. apply render_renders. split; [exact G|].
    rewrite statusToShow_plain.
    + now apply selectScreen_unknown.
    + intros [_ D]. apply Hunknown. right. now left.
  - intros e. apply render_throws.
Qed.

Lemma unknown_status_fallback_witness :
  render (initialFlags false) (Scenario.success "updating") running
  = Renders UnexpectedStateScreen.
Proof.
  apply (unknown_status_fallback (initialFlags false)
           (Scenario.success "updating") running).
  - unfold knownStatus. simpl. intuition discriminate.
  - reflexivity.
  - reflexivity.
Defined.

(** C8 as stated fails: the status is none of the known ones, and the render
    throws, because the last poll failed and no transition was triggered. *)
Lemma unknown_status_render_throws :
  ~ knownStatus (data (Scenario.refetchError "updating" "fetch failed")) /\
  render (initialFlags false) (Scenario.refetchError "updating" "fetch failed")
         running
  = Throws "fetch failed".
Proof.
  split; [|reflexivity]. unfold knownStatus. simpl. intuition discriminate.
Qed.

(** ** C9: what resets the two flags *)

(** C9, as the code has it.  [shouldLogoutOnRunning] is set back to false by
    the component itself, in the commit that sees ['running'] again.
    [triggered] is not: within the life of a page no step takes it from true
    to false; it is false again only after a page load, which starts the
    cells afresh and keeps [shouldLogoutOnRunning] as persisted. *)
Theorem flags_reset_per_cycle :
  (forall w q fresh,
     Reachable w -> mounted w = true -> throwGuard (flags w) q = None ->
     data q = running -> shouldLogoutOnRunning (flags w) = true ->
     shouldLogoutOnRunning (flags (step w (Commit q fresh))) = false) /\
  (forall w ev,
     isPageLoad ev = false -> triggered (flags w) = true ->
     triggered (flags (step w ev)) = true) /\
  (forall w,
     triggered (flags (step w PageLoad)) = false /\
     shouldLogoutOnRunning (flags (step w PageLoad))
     = shouldLogoutOnRunning (flags w)).
Proof.
  split; [|split].
  - intros w q fresh R M G D S.
    rewrite (reachable_commit w q fresh R M G). simpl.
    destruct (started_when_back_running w q D S) as [_ L]. now rewrite L.
  - apply step_keeps_triggered.
  - intro w. now split.
Qed.

Lemma flags_reset_per_cycle_witness :
  triggered (flags (step (run (mount false 0) Scenario.shutdownThenBack)
                         (Elapse 1000))) = true.
Proof.
  apply (proj1 (proj2 flags_reset_per_cycle)); reflexivity.
Defined.

(** C9 as stated fails for [triggered]: no step of the component takes it
    back to false.  After the whole of [Scenario.shutdownThenBack], the second
    of delay and the navigation to ['/'], it is still true. *)
Lemma no_step_clears_triggered :
  (~ exists w ev, isPageLoad ev = false /\
                  triggered (flags w) = true /\
                  triggered (flags (step w ev)) = false) /\
  (let w := run (mount false 0)
                (Scenario.shutdownThenBack ++ [Elapse 1000; FireTimer 0]) in
   In (Navigate "/") (log w) /\
   shouldLogoutOnRunning (flags w) = false /\
   triggered (flags w) = true).
Proof.
  split.
  - intros (w & ev & NP & T & F).
    rewrite (step_keeps_triggered w ev NP T) in F. discriminate.
  - vm_compute. repeat split. do 6 right. now left.
Qed.

(** ** C10: before any status was seen *)

(** C10.  As long as only [undefined] has been observed, the hook hands back
    [undefined] at the first defined observation, so the previous status is
    ['running']; if then [triggered] is true and the status is ['running'],
    [statusToShow] is ['running'] and the children are rendered. *)
Theorem first_observation_renders_children
        (n : nat) (st : Flags) (q : QueryResult)
        (Htriggered : triggered st = true)
        (Hstatus : data q = running)
        (Hloaded : isLoading q = false) :
  fst (usePreviousDistinct (observe None (repeat undefined n)) (data q)) = undefined /\
  prevStatus undefined = "running" /\
  statusToShow st (data q)
    (prevStatus (fst (usePreviousDistinct (observe None (repeat undefined n)) (data q))))
  = running /\
  render st q (fst (usePreviousDistinct (observe None (repeat undefined n)) (data q)))
  = Renders ChildrenScreen.
Proof.
  rewrite Hstatus. unfold running at 1 3 5.
  rewrite previousDistinct_first_defined.
  repeat split.
  - unfold statusToShow. now rewrite Htriggered.
  - apply render_renders. split.
    + apply throwGuard_None. now right.
    + rewrite statusToShow_masked by assumption.
      unfold selectScreen. now rewrite Hloaded.
Qed.

Lemma first_observation_renders_children_witness :
  render (mkFlags true false false false) (Scenario.success "running")
         (fst (usePreviousDistinct (observe None (repeat undefined 2))
                                   (data (Scenario.success "running"))))
  = Renders ChildrenScreen.
Proof.
  apply (first_observation_renders_children 2 (mkFlags true false false false)
           (Scenario.success "running")); reflexivity.
Defined.

(** * Further properties of the component *)

(** ** Helper facts *)

Section MoreStepFacts.

Lemma commit_thrown (w : World) (q : QueryResult) (fr : bool) (e : Error) :
  throwGuard (flags w) q = Some e ->
  commit q fr w
  = mkWorld (flags w) (hook w) (lastRender w) false (Some (Throws e))
            (now w) (timers w) (log w).
Proof. intro G. unfold commit. now rewrite G. Qed.

Lemma Extends_refl (w : World) : Extends w w.
Proof.
  repeat split; auto. exists []. simpl. now rewrite !app_nil_r.
Qed.

Lemma Extends_trans (w1 w2 w3 : World) :
  Extends w1 w2 -> Extends w2 w3 -> Extends w1 w3.
Proof.
  intros [(l1 & T1 & L1) [S1 C1]] [(l2 & T2 & L2) [S2 C2]].
  repeat split; [|auto|congruence].
  exists (l1 ++ l2). rewrite T2, T1, L2, L1, map_app, !app_assoc. auto.
Qed.

Lemma Extends_setTimeout (cb : Callback) (ms : N) (w : World) :
  Extends w (setTimeout cb ms w).
Proof.
  repeat split; auto. now exists [mkTimer (now w) ms cb].
Qed.

Lemma Extends_effects (st : Flags) (q : QueryResult) (w : World) :
  Extends w (effectOweLogout st q w) /\
  Extends w (effectLogout st q w) /\
  Extends w (effectShutdownTimer st q w).
Proof.
  unfold effectOweLogout, effectLogout, effectShutdownTimer.
  split; [|split].
  - destruct (oweLogoutGuard st q); [|apply Extends_refl].
    repeat split; auto. exists []. simpl. now rewrite !app_nil_r.
  - destruct (logoutGuard st q); [|apply Extends_refl].
    eapply Extends_trans; [|apply Extends_setTimeout].
    repeat split; auto. exists []. simpl. now rewrite !app_nil_r.
  - destruct (shutdownTimerGuard st q); [|apply Extends_refl].
    eapply Extends_trans; [|apply Extends_setTimeout].
    repeat split; auto. exists []. simpl. now rewrite !app_nil_r.
Qed.

Lemma Extends_when (b : bool) (f : World -> World) (w : World) :
  Extends w (f w) -> Extends w (if b then f w else w).
Proof. destruct b; [auto | intros _; apply Extends_refl]. Qed.

(** Whatever the dependencies say, a commit only appends the timers it
    starts and their [setTimeout] entries, and takes back no shutdown flag. *)
Lemma commit_extends (w : World) (q : QueryResult) (fr : bool) :
  Extends w (commit q fr w).
Proof.
  unfold commit.
  destruct (throwGuard (flags w) q).
  { repeat split; auto. exists []. simpl. now rewrite !app_nil_r. }
  destruct (usePreviousDistinct (hook w) (data q)) as [pd h].
  eapply Extends_trans; [|apply Extends_when, Extends_effects].
  eapply Extends_trans; [|apply Extends_when, Extends_effects].
  eapply Extends_trans; [|apply Extends_when, Extends_effects].
  repeat split; auto. exists []. simpl. now rewrite !app_nil_r.
Qed.

Lemma filter_logout_timeouts (l : list Timer) :
  filter isLogoutAction (map TimeoutSet l) = [].
Proof. induction l as [|t l IH]; simpl; auto. Qed.

Lemma filter_navigation_timeouts (l : list Timer) :
  filter isNavigation (map TimeoutSet l) = [].
Proof. induction l as [|t l IH]; simpl; auto. Qed.

Lemma filter_none {A} (f : A -> bool) (l : list A) (x : A) :
  List.length (filter f l) = 0 -> In x l -> f x = false.
Proof.
  induction l as [|y l IH]; simpl; intros E I; [contradiction|].
  destruct (f y) eqn:F; [discriminate|].
  destruct I as [<-|I]; auto.
Qed.

Lemma selectScreen_children (st : Flags) (q : QueryResult) (shown : Status) :
  selectScreen st q shown = ChildrenScreen <->
  isLoading q = false /\ (shown = undefined \/ shown = running).
Proof.
  unfold selectScreen. destruct (isLoading q).
  { split; [discriminate | intros [H _]; discriminate]. }
  destruct shown as [s|].
  - destruct (Some s === shutting_down) eqn:E.
    + apply strictEq_true in E. injection E as ->. simpl.
      destruct (shutdownComplete st); simpl;
        (split; [discriminate | intros [_ [H|H]]; discriminate]).
    + simpl. destruct (s =? "running") eqn:R.
      * apply String.eqb_eq in R. subst s. split; auto.
      * apply String.eqb_neq in R.
        split.
        -- destruct (s =? "shutting-down"); [discriminate|].
           destruct (s =? "restarting"); discriminate.
        -- intros [_ [H|H]]; [discriminate|]. injection H as ->. now contradiction R.
  - simpl. split; auto.
Qed.

(** After a status other than ['running'], observing ['running'] any number
    of times leaves that status as the previous distinct one. *)
Lemma previousDistinct_while_running (r : Refs) (s : string) (k : nat) :
  curRef r = Some s -> s <> "running" ->
  fst (usePreviousDistinct (observe (Some r) (repeat running k)) running) = Some s.
Proof.
  intros C N.
  assert (F : (curRef r === running) = false).
  { apply strictEq_false. rewrite C. unfold running. congruence. }
  destruct k as [|k]; simpl.
  - rewrite F. exact C.
  - rewrite F. simpl.
    induction k as [|k IH]; simpl; [exact C | exact IH].
Qed.

End MoreStepFacts.

(** ** X1: when the application and its context are rendered *)

(** X1.  The children, wrapped in the context provider, are rendered exactly
    when the render is not cut short by the query-error guard, the query is
    not loading and [statusToShow] is [undefined] or ['running'].  In that
    case [useGlobalSystemState] hands out the two actions; for every other
    outcome of the render the context is [null] and the hook throws. *)
Theorem context_available_iff (st : Flags) (q : QueryResult) (p : Status) :
  (render st q p = Renders ChildrenScreen <->
   throwGuard st q = None /\ isLoading q = false /\
   (statusToShow st (data q) (prevStatus p) = undefined \/
    statusToShow st (data q) (prevStatus p) = running)) /\
  (useGlobalSystemState (providedContext (render st q p))
   = inl (mkContext (Call Shutdown) (Call Restart))
   <-> render st q p = Renders ChildrenScreen) /\
  (render st q p <> Renders ChildrenScreen ->
   useGlobalSystemState (providedContext (render st q p))
   = inr "`useGlobalSystemState` must be used within `GlobalSystemStateProvider`").
Proof.
  split; [|split].
  - rewrite render_renders, selectScreen_children. tauto.
  - destruct (render st q p) as [e|[]]; simpl; split; intro H;
      try discriminate; reflexivity.
  - destruct (render st q p) as [e|[]]; simpl; intro H;
      try reflexivity. now contradiction H.
Qed.

(** ** X2: what the mask shows *)

Lemma observe_app (h : HookState) (vs vs' : list Status) :
  observe h (vs ++ vs') = observe (observe h vs) vs'.
Proof.
  revert h. induction vs as [|v vs IH]; intro h; simpl; [reflexivity | apply IH].
Qed.

(** After an observation the current ref holds the value observed. *)
Lemma usePreviousDistinct_current (h : HookState) (v : Status) :
  exists r, snd (usePreviousDistinct h v) = Some r /\ curRef r = v.
Proof.
  destruct h as [r|]; simpl.
  - destruct (curRef r === v) eqn:E; simpl.
    + exists r. split; [reflexivity|]. now apply strictEq_true.
    + eexists. split; reflexivity.
  - eexists. split; reflexivity.
Qed.

Lemma mask_from_refs
      (r : Refs) (s : string) (k : nat) (st : Flags) (q : QueryResult) :
  curRef r = Some s -> s <> "running" ->
  triggered st = true -> data q = running -> isLoading q = false ->
  fst (usePreviousDistinct (observe (Some r) (repeat running k)) (data q)) = Some s /\
  statusToShow st (data q)
    (prevStatus (fst (usePreviousDistinct (observe (Some r) (repeat running k)) (data q))))
  = Some s /\
  render st q (fst (usePreviousDistinct (observe (Some r) (repeat running k)) (data q)))
  = Renders (selectScreen st q (Some s)) /\
  render st q (fst (usePreviousDistinct (observe (Some r) (repeat running k)) (data q)))
  <> Renders ChildrenScreen.
Proof.
  intros Hlast Hother Htriggered Hstatus Hloaded.
  rewrite Hstatus.
  rewrite (previousDistinct_while_running r s k Hlast Hother).
  assert (S : statusToShow st running (prevStatus (Some s)) = Some s).
  { unfold statusToShow. now rewrite Htriggered. }
  assert (R : render st q (Some s) = Renders (selectScreen st q (Some s))).
  { apply render_renders. split.
    - apply throwGuard_None. now right.
    - now rewrite Hstatus, S. }
  repeat split; auto.
  rewrite R. intro E. injection E as E.
  apply selectScreen_children in E. destruct E as [_ [E|E]]; [discriminate|].
  injection E as ->. now contradiction Hother.
Qed.

(** X2.  Whatever was observed before: when the last status observed before
    a run of ['running'] polls is a defined status [s] other than
    ['running'], every render of that run ([k] earlier ['running'] renders,
    for any [k]), while [triggered] is true and the query is not loading, is
    shown as if the status were still [s]: the hook hands back [s],
    [statusToShow] is [s], and the screen is the one of [s], never the
    children. *)
Theorem mask_shows_last_other_status
        (h : HookState) (before : list Status) (s : string) (k : nat)
        (st : Flags) (q : QueryResult)
        (Hother : s <> "running")
        (Htriggered : triggered st = true)
        (Hstatus : data q = running)
        (Hloaded : isLoading q = false) :
  fst (usePreviousDistinct
         (observe h (before ++ [Some s] ++ repeat running k)) (data q)) = Some s /\
  statusToShow st (data q)
    (prevStatus (fst (usePreviousDistinct
                        (observe h (before ++ [Some s] ++ repeat running k)) (data q))))
  = Some s /\
  render st q (fst (usePreviousDistinct
                      (observe h (before ++ [Some s] ++ repeat running k)) (data q)))
  = Renders (selectScreen st q (Some s)) /\
  render st q (fst (usePreviousDistinct
                      (observe h (before ++ [Some s] ++ repeat running k)) (data q)))
  <> Renders ChildrenScreen.
Proof.
  rewrite !observe_app.
  destruct (usePreviousDistinct_current (observe h before) (Some s)) as (r & E & C).
  change (observe (observe h before) [Some s])
    with (snd (usePreviousDistinct (observe h before) (Some s))).
  rewrite E. now apply mask_from_refs.
Qed.

Lemma mask_shows_last_other_status_witness :
  render (mkFlags true true false false) (Scenario.success "running")
         (fst (usePreviousDistinct
                 (observe None ([undefined; running; shutting_down]
                                ++ [Some "restarting"] ++ repeat running 3))
                 (data (Scenario.success "running"))))
  = Renders (selectScreen (mkFlags true true false false)
                          (Scenario.success "running") (Some "restarting")).
Proof.
  refine (proj1 (proj2 (proj2
            (mask_shows_last_other_status
               None [undefined; running; shutting_down] "restarting" 3
               (mkFlags true true false false) (Scenario.success "running")
               _ _ _ _)))).
  - discriminate.
  - reflexivity.
  - reflexivity.
  - reflexivity.
Defined.

(** ** X3: the dependency arrays are complete *)

(** X3.  On every world the page can reach, a commit does the same whether
    or not the objects in the dependency arrays ([setShouldLogout], [jwt],
    [queryClient]) are new ones; and a render that returns is followed by
    exactly the effects whose guards are open, as if every effect ran after
    every render. *)
Theorem effects_ignore_object_identities (w : World) (q : QueryResult)
        (Hreach : Reachable w) :
  step w (Commit q true) = step w (Commit q false) /\
  (mounted w = true -> throwGuard (flags w) q = None ->
   forall fresh, step w (Commit q fresh) = commitAll q w).
Proof.
  pose proof (inv_settled w (reachable_invariant w Hreach)) as S.
  split.
  - simpl. destruct (mounted w); [|reflexivity].
    destruct (throwGuard (flags w) q) as [e|] eqn:G.
    + now rewrite !(commit_thrown w q _ e G).
    + now rewrite !(commit_runs_open_guards w q _ S G).
  - intros M G fresh. simpl. rewrite M.
    apply (commit_runs_open_guards w q fresh S G).
Qed.

Lemma effects_ignore_object_identities_witness :
  step (run (mount false 0) (firstn 5 Scenario.shutdownThenBack))
       (Commit (Scenario.retrying "shutting-down" 1) true)
  = step (run (mount false 0) (firstn 5 Scenario.shutdownThenBack))
         (Commit (Scenario.retrying "shutting-down" 1) false).
Proof.
  apply (proj1 (effects_ignore_object_identities
                  (run (mount false 0) (firstn 5 Scenario.shutdownThenBack))
                  (Scenario.retrying "shutting-down" 1)
                  (reachable_run _ _ (reach_mount false 0)))).
Defined.

(** ** X4: the shutdown flags are never taken back *)

Lemma step_sticky_flags (w : World) (ev : Event) :
  isPageLoad ev = false ->
  (startShutdownTimer (flags w) = true ->
   startShutdownTimer (flags (step w ev)) = true) /\
  (shutdownComplete (flags w) = true ->
   shutdownComplete (flags (step w ev)) = true).
Proof.
  intro NP. destruct ev as [q fr|k|k|ms|i|]; simpl; try discriminate; auto.
  - destruct (mounted w); [|auto].
    destruct (commit_extends w q fr) as (_ & H1 & H2). rewrite H2. auto.
  - destruct (mounted w); auto.
  - unfold fire. destruct (nth_error (timers w) i) as [t|]; [|auto].
    destruct (due t <=? now w)%N; [|auto].
    destruct (callback t); simpl; [auto|].
    destruct (mounted w); simpl; auto.
Qed.

(** X4.  Within the life of a page nothing sets [startShutdownTimer] or
    [shutdownComplete] back to false.  So once the 30 seconds have run out,
    every later render that returns, is not loading and polls
    ['shutting-down'] shows the terminal message. *)
Theorem shutdown_flags_never_reset (w : World) (evs : list Event)
        (Hpage : forallb (fun ev => negb (isPageLoad ev)) evs = true) :
  (startShutdownTimer (flags w) = true ->
   startShutdownTimer (flags (run w evs)) = true) /\
  (shutdownComplete (flags w) = true ->
   shutdownComplete (flags (run w evs)) = true) /\
  (shutdownComplete (flags w) = true ->
   forall q p, data q = shutting_down -> isLoading q = false ->
               throwGuard (flags (run w evs)) q = None ->
               render (flags (run w evs)) q p = Renders ShutdownCompleteScreen).
Proof.
  assert (K : (startShutdownTimer (flags w) = true ->
               startShutdownTimer (flags (run w evs)) = true) /\
              (shutdownComplete (flags w) = true ->
               shutdownComplete (flags (run w evs)) = true)).
  { revert w. induction evs as [|ev evs IH]; intro w; simpl in *; [auto|].
    apply andb_prop in Hpage. destruct Hpage as [H1 H2].
    apply negb_true_iff in H1.
    destruct (step_sticky_flags w ev H1) as [A B].
    destruct (IH H2 (step w ev)) as [A' B']. auto. }
  destruct K as [K1 K2]. repeat split; auto.
  intros C q p D L G. apply render_renders. split; [exact G|].
  rewrite statusToShow_plain.
  - rewrite D. apply selectScreen_complete. auto.
  - rewrite D. intros [_ E]. discriminate.
Qed.

Lemma shutdown_flags_never_reset_witness :
  shutdownComplete
    (flags (run (run (mount false 0) (firstn 8 Scenario.shutdownThenBack))
                [Commit (Scenario.success "running") false; Elapse 5;
                 Commit (Scenario.success "shutting-down") true]))
  = true.
Proof.
  apply (shutdown_flags_never_reset
           (run (mount false 0) (firstn 8 Scenario.shutdownThenBack))
           [Commit (Scenario.success "running") false; Elapse 5;
            Commit (Scenario.success "shutting-down") true]);
    reflexivity.
Defined.

(** ** X5: no timer is ever cancelled *)

Lemma step_keeps_timers (w : World) (ev : Event) :
  isFireTimer ev = false -> isPageLoad ev = false ->
  exists l, timers (step w ev) = timers w ++ l.
Proof.
  intros NF NP. destruct ev as [q fr|k|k|ms|i|]; simpl; try discriminate.
  - destruct (mounted w).
    + destruct (commit_extends w q fr) as ((l & T & _) & _). now exists l.
    + exists []. now rewrite app_nil_r.
  - destruct (mounted w); exists []; simpl; now rewrite app_nil_r.
  - exists []. simpl. now rewrite app_nil_r.
  - exists []. simpl. now rewrite app_nil_r.
Qed.

(** X5.  Renders, effects, [restart()] / [shutdown()] calls, mutation answers
    and the passing of time never remove a pending timer: short of running
    it or leaving the page, every timer started stays in place, also after a
    render has thrown. *)
Theorem timers_never_cancelled (w : World) (evs : list Event)
        (Hkeep : forallb (fun ev => negb (isFireTimer ev) && negb (isPageLoad ev))
                         evs = true) :
  exists l, timers (run w evs) = timers w ++ l.
Proof.
  revert w. induction evs as [|ev evs IH]; intro w; simpl in *.
  - exists []. now rewrite app_nil_r.
  - apply andb_prop in Hkeep. destruct Hkeep as [H1 H2].
    apply andb_prop in H1. destruct H1 as [NF NP].
    apply negb_true_iff in NF, NP.
    destruct (step_keeps_timers w ev NF NP) as [l1 E1].
    destruct (IH H2 (step w ev)) as [l2 E2].
    exists (l1 ++ l2). now rewrite E2, E1, app_assoc.
Qed.

Lemma timers_never_cancelled_witness :
  exists l,
    timers (run (run (mount false 0) (firstn 6 Scenario.shutdownThenBack))
                [Commit (Scenario.refetchError "shutting-down" "fetch failed") false;
                 Elapse 40000; Commit (Scenario.success "running") false])
    = timers (run (mount false 0) (firstn 6 Scenario.shutdownThenBack)) ++ l.
Proof.
  apply (timers_never_cancelled
           (run (mount false 0) (firstn 6 Scenario.shutdownThenBack))
           [Commit (Scenario.refetchError "shutting-down" "fetch failed") false;
            Elapse 40000; Commit (Scenario.success "running") false]).
  reflexivity.
Defined.

(** ** X6: a page that never asks for a transition never logs out *)

Lemma startedTimers_no_logout (st : Flags) (q : QueryResult) (t : N) :
  logoutGuard st q = false ->
  filter isLogoutTimer (startedTimers st q t) = [].
Proof.
  intro G. unfold startedTimers. rewrite G.
  destruct (shutdownTimerGuard st q); reflexivity.
Qed.

Lemma quiet_step (w : World) (ev : Event) :
  Reachable w -> Quiet w -> isCall ev = false -> Quiet (step w ev).
Proof.
  intros R [T F P L] NC.
  destruct ev as [q fr|k|k|ms|i|]; simpl in *; try discriminate.
  - destruct (mounted w) eqn:M; [|now constructor].
    destruct (throwGuard (flags w) q) as [e|] eqn:G.
    + rewrite (commit_thrown w q fr e G). now constructor.
    + pose proof (reachable_commit w q fr R M G) as E. simpl in E.
      rewrite M in E. rewrite E.
      assert (G1 : oweLogoutGuard (flags w) q = false).
      { unfold oweLogoutGuard. rewrite T. now rewrite andb_false_r. }
      assert (G2 : logoutGuard (flags w) q = false).
      { unfold logoutGuard. rewrite F. now rewrite andb_false_r. }
      constructor; simpl.
      * exact T.
      * now rewrite G1, G2.
      * unfold pendingLogouts in *. simpl.
        rewrite filter_app, length_app, (startedTimers_no_logout _ _ _ G2), P.
        reflexivity.
      * now rewrite filter_app, filter_logout_timeouts, L.
  - constructor; simpl; auto. now rewrite filter_app, L.
  - now constructor.
  - unfold fire. destruct (nth_error (timers w) i) as [t|] eqn:Nth; [|now constructor].
    destruct (due t <=? now w)%N; [|now constructor].
    pose proof (filter_removeNth isLogoutTimer _ _ _ Nth) as Rm.
    unfold pendingLogouts in P. rewrite P in Rm.
    pose proof (filter_none isLogoutTimer _ t P (nth_error_In _ _ Nth)) as NL.
    unfold isLogoutTimer in NL.
    destruct (callback t); [discriminate|]. simpl.
    destruct (mounted w); constructor; simpl; auto;
      unfold pendingLogouts; simpl; lia.
  - now constructor.
Qed.

(** X6.  A page loaded with no logout owed, on which [restart()] and
    [shutdown()] are never called, never cancels the queries, removes the
    token or navigates, whatever the backend reports, however long it runs
    and however often it is reloaded; [shouldLogoutOnRunning] stays false and
    no logout timer is ever pending. *)
Theorem no_logout_without_trigger (t : N) (evs : list Event)
        (Hnocall : forallb (fun ev => negb (isCall ev)) evs = true) :
  filter isLogoutAction (log (run (mount false t) evs)) = [] /\
  navigations (run (mount false t) evs) = 0 /\
  pendingLogouts (run (mount false t) evs) = 0 /\
  shouldLogoutOnRunning (flags (run (mount false t) evs)) = false /\
  triggered (flags (run (mount false t) evs)) = false.
Proof.
  assert (K : forall w, Reachable w -> Quiet w -> Quiet (run w evs)).
  { induction evs as [|ev evs' IH]; intros w R Q; simpl in *; [exact Q|].
    apply andb_prop in Hnocall. destruct Hnocall as [H1 H2].
    apply negb_true_iff in H1.
    apply (IH H2); [now constructor | now apply quiet_step]. }
  destruct (K (mount false t)) as [T F P L].
  - constructor.
  - now constructor.
  - repeat split; auto.
    unfold navigations.
    assert (S : forall l, filter isLogoutAction l = [] -> filter isNavigation l = []).
    { induction l as [|a l IH]; simpl; [auto|].
      destruct a; simpl; try discriminate; auto. }
    now rewrite (S _ L).
Qed.

Lemma no_logout_without_trigger_witness :
  filter isLogoutAction
    (log (run (mount false 0)
              (Scenario.elsewhereThenTimer
               ++ [PageLoad; Commit (Scenario.success "running") true;
                   Elapse 2000; FireTimer 0]))) = [].
Proof.
  apply (no_logout_without_trigger 0
           (Scenario.elsewhereThenTimer
            ++ [PageLoad; Commit (Scenario.success "running") true;
                Elapse 2000; FireTimer 0])).
  reflexivity.
Defined.

(** ** X7: a logout is only owed by a page that triggered the transition *)

Lemma owed_step (w : World) (ev : Event) :
  Reachable w -> isPageLoad ev = false ->
  (shouldLogoutOnRunning (flags w) = true -> triggered (flags w) = true) ->
  shouldLogoutOnRunning (flags (step w ev)) = true ->
  triggered (flags (step w ev)) = true.
Proof.
  intros R NP I.
  destruct ev as [q fr|k|k|ms|i|]; simpl in *; try discriminate; auto.
  - destruct (mounted w) eqn:M; [|exact I].
    destruct (throwGuard (flags w) q) as [e|] eqn:G.
    + rewrite (commit_thrown w q fr e G). exact I.
    + pose proof (reachable_commit w q fr R M G) as E. simpl in E.
      rewrite M in E. rewrite E. simpl.
      destruct (logoutGuard (flags w) q); [discriminate|].
      destruct (oweLogoutGuard (flags w) q) eqn:G1; [|exact I].
      intros _. unfold oweLogoutGuard in G1.
      apply andb_prop in G1. destruct G1 as [G1 _].
      apply andb_prop in G1. tauto.
  - destruct (mounted w); [reflexivity | exact I].
  - rewrite fire_shouldLogout, fire_triggered. exact I.
Qed.

(** X7.  On a page loaded with no logout owed, [shouldLogoutOnRunning] can
    only be true while [triggered] is true: the flag is raised by nothing
    but a transition this page asked for itself. *)
Theorem logout_owed_only_when_triggered (t : N) (evs : list Event)
        (Hpage : forallb (fun ev => negb (isPageLoad ev)) evs = true)
        (Howed : shouldLogoutOnRunning (flags (run (mount false t) evs)) = true) :
  triggered (flags (run (mount false t) evs)) = true.
Proof.
  assert (K : forall w, Reachable w ->
              (shouldLogoutOnRunning (flags w) = true -> triggered (flags w) = true) ->
              shouldLogoutOnRunning (flags (run w evs)) = true ->
              triggered (flags (run w evs)) = true).
  { clear Howed. induction evs as [|ev evs' IH]; intros w R I; simpl in *; [exact I|].
    apply andb_prop in Hpage. destruct Hpage as [H1 H2].
    apply negb_true_iff in H1.
    apply (IH H2); [now constructor | now apply owed_step]. }
  apply (K (mount false t)); [constructor | discriminate | exact Howed].
Qed.

Lemma logout_owed_only_when_triggered_witness :
  triggered (flags (run (mount false 0) (firstn 5 Scenario.shutdownThenBack))) = true.
Proof.
  apply (logout_owed_only_when_triggered 0 (firstn 5 Scenario.shutdownThenBack));
    reflexivity.
Defined.

(** ** X8: from the transition to the logout *)

(** X8.  On a page that triggered a transition and owes no logout yet, a
    render that polls anything but ['running'] followed by a render that polls
    ['running'] leaves exactly one more logout timer pending, set to one
    second, with the flag cleared again; nothing of the logout itself has
    been done yet. *)
Theorem transition_then_running_starts_logout
        (w : World) (q1 q2 : QueryResult) (f1 f2 : bool)
        (Hreach : Reachable w)
        (Hmounted : mounted w = true)
        (Htriggered : triggered (flags w) = true)
        (Hclean : shouldLogoutOnRunning (flags w) = false)
        (Haway : data q1 <> running)
        (Hback : data q2 = running) :
  shouldLogoutOnRunning (flags (step w (Commit q1 f1))) = true /\
  shouldLogoutOnRunning (flags (run w [Commit q1 f1; Commit q2 f2])) = false /\
  pendingLogouts (run w [Commit q1 f1; Commit q2 f2]) = pendingLogouts w + 1 /\
  In (mkTimer (now w) 1000 LogoutCallback)
     (timers (run w [Commit q1 f1; Commit q2 f2])) /\
  filter isLogoutAction (log (run w [Commit q1 f1; Commit q2 f2]))
  = filter isLogoutAction (log w).
Proof.
  assert (G1 : throwGuard (flags w) q1 = None) by (apply throwGuard_None; now right).
  pose proof (reachable_commit w q1 f1 Hreach Hmounted G1) as E1.
  assert (NR : (data q1 === running) = false) by now apply strictEq_false.
  assert (O1 : oweLogoutGuard (flags w) q1 = true).
  { unfold oweLogoutGuard. now rewrite NR, Htriggered, Hclean. }
  assert (L1 : logoutGuard (flags w) q1 = false).
  { unfold logoutGuard. now rewrite NR. }
  set (w1 := step w (Commit q1 f1)) in *.
  assert (R1 : Reachable w1) by (now constructor).
  assert (M1 : mounted w1 = true) by (now rewrite E1).
  assert (T1 : triggered (flags w1) = true) by (now rewrite E1).
  assert (S1 : shouldLogoutOnRunning (flags w1) = true).
  { rewrite E1. simpl. now rewrite L1, O1. }
  assert (N1 : now w1 = now w) by (now rewrite E1).
  assert (G2 : throwGuard (flags w1) q2 = None) by (apply throwGuard_None; now right).
  pose proof (reachable_commit w1 q2 f2 R1 M1 G2) as E2.
  destruct (started_when_back_running w1 q2 Hback S1) as [St L2].
  rewrite St in E2.
  split; [exact S1|].
  change (run w [Commit q1 f1; Commit q2 f2]) with (step w1 (Commit q2 f2)).
  rewrite E2. simpl. rewrite L2, N1.
  repeat split.
  - unfold pendingLogouts. simpl.
    rewrite filter_app, length_app. simpl.
    rewrite E1. simpl.
    rewrite filter_app, length_app, (startedTimers_no_logout _ _ _ L1). simpl. lia.
  - apply in_or_app. right. now left.
  - rewrite filter_app. simpl. rewrite app_nil_r.
    rewrite E1. simpl. now rewrite filter_app, filter_logout_timeouts, app_nil_r.
Qed.

Lemma transition_then_running_starts_logout_witness :
  pendingLogouts
    (run (run (mount false 0) (firstn 4 Scenario.shutdownThenBack))
         [Commit (Scenario.success "restarting") false;
          Commit (Scenario.success "running") false])
  = pendingLogouts (run (mount false 0) (firstn 4 Scenario.shutdownThenBack)) + 1.
Proof.
  refine (proj1 (proj2 (proj2
            (transition_then_running_starts_logout
               (run (mount false 0) (firstn 4 Scenario.shutdownThenBack))
               (Scenario.success "restarting") (Scenario.success "running")
               false false _ _ _ _ _ _)))).
  - apply reachable_run. constructor.
  - reflexivity.
  - reflexivity.
  - reflexivity.
  - discriminate.
  - reflexivity.
Defined.

(** ** X9: an owed logout survives a reload *)



(** ** X10: the shape of a logout *)

Lemma bundled_step (w : World) (ev : Event) :
  filter isLogoutAction (log w) = bundles (navigations w) ->
  filter isLogoutAction (log (step w ev)) = bundles (navigations (step w ev)).
Proof.
  intro B. unfold navigations in *.
  destruct ev as [q fr|k|k|ms|i|]; simpl.
  - destruct (mounted w); [|exact B].
    destruct (commit_extends w q fr) as ((l & _ & L) & _). rewrite L.
    now rewrite !filter_app, filter_logout_timeouts, filter_navigation_timeouts,
      !app_nil_r.
  - destruct (mounted w); [|exact B]. simpl.
    now rewrite !filter_app, !app_nil_r.
  - simpl. now rewrite !filter_app, !app_nil_r.
  - exact B.
  - unfold fire. destruct (nth_error (timers w) i) as [t|]; [|exact B].
    destruct (due t <=? now w)%N; [|exact B].
    destruct (callback t); simpl.
    + rewrite !filter_app, length_app, B. simpl.
      now rewrite Nat.add_1_r.
    + destruct (mounted w); exact B.
  - reflexivity.
Qed.

(** X10.  On every world the page can reach, the logout actions in the log
    are whole runs of the callback, one per navigation: the queries are
    canceled, then the token is removed, then the page navigates to ['/'].
    The component never removes the token without navigating, and never
    navigates anywhere else. *)
Theorem logout_actions_come_bundled (w : World) (Hreach : Reachable w) :
  filter isLogoutAction (log w) = bundles (navigations w).
Proof.
  induction Hreach as [persisted t | w ev R IH].
  - reflexivity.
  - now apply bundled_step.
Qed.

Lemma logout_actions_come_bundled_witness :
  filter isLogoutAction
    (log (run (mount false 0)
              (Scenario.shutdownThenBack ++ [Elapse 1000; FireTimer 0])))
  = bundles (navigations
               (run (mount false 0)
                    (Scenario.shutdownThenBack ++ [Elapse 1000; FireTimer 0]))).
Proof.
  apply (logout_actions_come_bundled
           (run (mount false 0)
                (Scenario.shutdownThenBack ++ [Elapse 1000; FireTimer 0]))).
  apply reachable_run. constructor.
Defined.

(** ** X11: after a trigger the component never throws *)

(** X11.  Once [restart()] or [shutdown()] has been called on a mounted
    page, no render throws for the rest of the page's life, whatever errors
    the status query reports: the component stays mounted and [triggered]
    stays true. *)
Theorem triggered_page_never_throws (w : World) (evs : list Event)
        (Hmounted : mounted w = true)
        (Htriggered : triggered (flags w) = true)
        (Hpage : forallb (fun ev => negb (isPageLoad ev)) evs = true) :
  mounted (run w evs) = true /\
  triggered (flags (run w evs)) = true /\
  (forall q p e, render (flags (run w evs)) q p <> Throws e).
Proof.
  assert (K : mounted (run w evs) = true /\ triggered (flags (run w evs)) = true).
  { revert w Hmounted Htriggered.
    induction evs as [|ev evs' IH]; intros w M T; simpl in *; [auto|].
    apply andb_prop in Hpage. destruct Hpage as [H1 H2].
    apply negb_true_iff in H1.
    apply (IH H2).
    - now apply step_stays_mounted.
    - now apply step_keeps_triggered. }
  destruct K as [M T]. repeat split; auto.
  intros q p e H. apply render_throws in H. destruct H as [_ H]. congruence.
Qed.

Lemma triggered_page_never_throws_witness :
  mounted (run (run (mount false 0) (firstn 3 Scenario.shutdownThenBack))
               [Commit (Scenario.refetchError "running" "fetch failed") false;
                Commit (Scenario.loadingError "fetch failed") true])
  = true.
Proof.
  apply (triggered_page_never_throws
           (run (mount false 0) (firstn 3 Scenario.shutdownThenBack))
           [Commit (Scenario.refetchError "running" "fetch failed") false;
            Commit (Scenario.loadingError "fetch failed") true]);
    reflexivity.
Defined.
